(* ===== verification/_CoqProject ===== *)
-Q . S2P
Prelude.v
Format.v
Json.v
PyConv.v
LinearFit.v
Trend.v
Demand.v
Errors.v
Compare.v
Service.v
