(* ===== verification/Prelude.v ===== *)
(** * A verification library for the CoDeSMerchF forecast service

    The program is one Flask module, [src/backend/app.py].  It has five
    HTTP views and no state shared between requests.  Each view decodes a
    JSON body, computes a few statistics and returns JSON:

    - [health] (GET /health) answers [{"status": "ok"}];
    - [forecast_trend] (POST /forecast/trend) fits an ordinary
      least-squares line to a series.  It returns the fitted values, the
      prediction one step ahead and the coefficient of determination.
    - [forecast_demand] (POST /forecast/demand) fits the same kind of line
      and sums its predictions over a horizon.  It also returns a
      confidence band built from the residuals' standard deviation.
    - [forecast_errors] (POST /forecast/errors) puts the residuals
      actual - predicted into buckets of width 5 and returns a sorted
      sparse histogram.
    - [forecast_compare] (POST /forecast/compare) computes, per row, the
      ratio min/max of actual and predicted.  It formats the ratios and
      their mean as percentages.

    The two forecasting views share the least-squares fit of
    scikit-learn's [LinearRegression].  That library code is not part of
    the repository; it is modelled from the spec and its documented
    algorithm (centre the data, solve the one-column least-squares
    problem, recover the intercept).  Flask's routing and error statuses,
    and the Python builtins the views call, are modelled the same way.

    ** Files, in dependency order

    - [Prelude] (this file): sums over lists of rationals ([np.sum],
      [np.mean]), Python's two-argument [max]/[min], Python's [round]
      (ties to even), the shared lemmas, the hint database [forecast]
      and tactics.
    - [Format]: ["{:.Nf}"] formatting of a float ([format_fixed]).
    - [Json]: decoded JSON values, Python exceptions as values of the
      outcome type [pyres] with its [let*], list comprehensions ([pmap]),
      [get_json(force=True)], [... or {}], [dict.get], iteration, [len]
      and indexing.
    - [PyConv]: [float()] and [int()] on JSON values, with CPython's
      grammar for strings.
    - [LinearFit]: scikit-learn's fit ([ols_fit]), the contract
      [LeastSquares] it meets (instance [ols_least_squares]), and the
      index column [np.arange] ([qarange], [arange_points]).
    - [Trend]: lines 13-27; [trend_core] from the converted values on,
      [forecast_trend] the whole view.
    - [Demand]: lines 29-55; [np.sqrt] is the class [NpSqrt] with laws
      [NpSqrtLaws]; [demand_core] and the view [forecast_demand].
    - [Errors]: lines 57-71; the dict [bucket] as an insertion-ordered
      association list ([dict_get], [dict_set]), the loop
      [bucket_counts], [sorted] as stdpp's [merge_sort]; [errors_core] and
      the view [forecast_errors].
    - [Compare]: lines 73-89; the loop with its state [(out, accs)]
      ([compare_step], [compare_loop]), [compare_core] and the view
      [forecast_compare].
    - [Service]: the routing table of the decorators (lines 9, 13, 29,
      57, 73), Flask's 404, 405, HEAD and OPTIONS, the status of a view's
      outcome ([finish]: 200, 400 for [BadRequest], 500), and [health].

    ** What the theorems show

    - Safety and bounds of each view's results: [0 <= lower <= upper]
      (Demand), [r2] is 0 or in [0, 1] (Trend), accuracies in [0, 1] and
      every percentage string between 0.0% and 100.0% (Compare), the
      confidence a whole percentage up to 100 (Demand), buckets within
      2.5 of their residual (Errors).
    - Invariants of the histogram: its keys strictly ascending, its
      frequencies summing to the number of pairs, each row the exact
      count of its bucket, the same histogram for any order of the pairs
      (Errors).
    - Roundtrip: [float()] reads an accuracy string back as the accuracy
      rounded half to even at one decimal of a percent (PyConv, Compare).
    - Refinement: the fit is optimal among all lines and satisfies the
      normal equations (LinearFit); the compare loop computes the map of
      a per-row function (Compare).
    - Functional behaviour on characteristic inputs: constant and linear
      series, non-positive horizons, falling series, ties.
    - The views on request bodies: on well-formed bodies each view returns
      the JSON of its core function; on malformed ones it raises, and the
      first failing conversion decides the exception.
    - Routing: each rule reaches its view, other methods get 405.

    ** Modelling choices and bounds

    - Python floats are modelled as exact rationals [Q].  Float rounding
      inside numpy and LAPACK is not modelled.  Every theorem is a
      statement about the real-number semantics the code approximates.
      Values that only floats have (inf, nan, -0.0) are outside the model:
      a computation that would produce one is [NonFinite], and the
      theorems say nothing about it.
    - Python's [round(x)] on a float is [round_half_even]: the nearest
      integer, ties to the even one, applied to the exact value.
    - [np.sqrt] is abstract; the witnesses run the model with the
      rational square root rounded down to 6 decimals.
    - Strings are ASCII byte strings; the only non-ASCII literal, ["±"],
      is its UTF-8 encoding.  Unicode digits and whitespace, which
      CPython's [float()] also accepts, are not modelled.
    - Every definition is structurally recursive or a fold over the input
      list; there is no fuel and every view terminates on every body.

    ** Not modelled

    The HTTP server ([app.run]) and the CORS headers ([CORS(app)]) are
    I/O that changes no status and no body.  Flask's error pages are
    represented by their status only.  *)

From Stdlib Require Import QArith Qround Qabs Qminmax Lqa Lia List ZArith.
From Stdlib Require Import Setoid Morphisms.
Import ListNotations.

Declare Scope forecast_scope.
Delimit Scope forecast_scope with fc.
Open Scope Q_scope.

Create HintDb forecast.
Create Rewrite HintDb forecast_sums.

(** ** Sums and means *)

(** [np.sum] of the image of a list under [f], in exact arithmetic. *)
Definition qsum_map {A} (f : A -> Q) (l : list A) : Q :=
  fold_right (fun a acc => f a + acc) 0 l.

Notation "'Σ[' x '<-' l ']' e" := (qsum_map (fun x => e) l)
  (at level 35, x name, l at level 50, e at level 35) : forecast_scope.

(** [np.sum] of a list. *)
Definition qsum (l : list Q) : Q := qsum_map (fun x => x) l.

(** The length of a list as a rational: numpy's [len(y)] in a division. *)
Definition qlen {A} (l : list A) : Q := inject_Z (Z.of_nat (length l)).

(** [np.mean]: the sum divided by the length (the code never takes the
    mean of an empty list). *)
Definition qmean (l : list Q) : Q := qsum l / qlen l.

(** Python's [max(a, b)]: [b] only when [b > a], else [a]. *)
Definition py_max (a b : Q) : Q := if Qlt_le_dec a b then b else a.

(** Python's [min(a, b)]: [b] only when [b < a], else [a]. *)
Definition py_min (a b : Q) : Q := if Qlt_le_dec b a then b else a.

(** Python's [round(x)] on a float: the nearest integer, ties to even. *)
Definition round_half_even (x : Q) : Z :=
  let f := Qfloor x in
  match Qcompare (x - inject_Z f) (1 # 2) with
  | Lt => f
  | Gt => (f + 1)%Z
  | Eq => if Z.even f then f else (f + 1)%Z
  end.

(** A Python number in a response: an [int] or a [float].  [jsonify]
    prints them differently ([0] and [0.0]). *)
Inductive pynum : Type :=
| PyInt (z : Z)
| PyFloat (q : Q).

(** The numeric value of a Python number. *)
Definition pynum_val (n : pynum) : Q :=
  match n with
  | PyInt z => inject_Z z
  | PyFloat q => q
  end.

(** numpy's elementwise [a - b] on two arrays of the same length. *)
Definition vsub (xs ys : list Q) : list Q := map (fun '(a, b) => a - b) (combine xs ys).

Open Scope forecast_scope.

(** ** Tactics *)

(** Case analysis on the comparisons that Python's [max] and [min] make. *)
Ltac py_cases :=
  unfold py_max, py_min in *;
  repeat match goal with
         | |- context [Qlt_le_dec ?a ?b] => destruct (Qlt_le_dec a b)
         | H : context [Qlt_le_dec ?a ?b] |- _ => destruct (Qlt_le_dec a b)
         end.

(** ** Lemmas on sums *)

Lemma inject_Z_of_nat_S (k : nat) : inject_Z (Z.of_nat (S k)) == inject_Z (Z.of_nat k) + 1.
Proof. rewrite Nat2Z.inj_succ, <- Z.add_1_r, inject_Z_plus. reflexivity. Qed.

Section Sums.
Context {A : Type}.
Implicit Types (f g : A -> Q) (l : list A).

Lemma qsum_map_nil f : qsum_map f [] = 0.
  Proof. reflexivity. Qed.

Lemma qsum_map_cons f a l : qsum_map f (a :: l) = f a + qsum_map f l.
  Proof. reflexivity. Qed.

Lemma qsum_map_app f l1 l2 :
    qsum_map f (l1 ++ l2) == qsum_map f l1 + qsum_map f l2.
  Proof.
    induction l1 as [|a l1 IH]; simpl; [ring|]. rewrite IH. ring.
  Qed.

Lemma qsum_map_ext f g l :
    (forall a, In a l -> f a == g a) -> qsum_map f l == qsum_map g l.
  Proof.
    induction l as [|a l IH]; intros H; simpl; [reflexivity|].
    rewrite (H a (or_introl eq_refl)), IH by (intros; apply H; right; auto).
    reflexivity.
  Qed.

Lemma qsum_map_plus f g l :
    qsum_map (fun a => f a + g a) l == qsum_map f l + qsum_map g l.
  Proof. induction l as [|a l IH]; simpl; [ring|]. rewrite IH. ring. Qed.

Lemma qsum_map_minus f g l :
    qsum_map (fun a => f a - g a) l == qsum_map f l - qsum_map g l.
  Proof. induction l as [|a l IH]; simpl; [ring|]. rewrite IH. ring. Qed.

Lemma qsum_map_scale c f l :
    qsum_map (fun a => c * f a) l == c * qsum_map f l.
  Proof. induction l as [|a l IH]; simpl; [ring|]. rewrite IH. ring. Qed.

Lemma qlen_cons (a : A) l : qlen (a :: l) == qlen l + 1.
  Proof. apply inject_Z_of_nat_S. Qed.

Lemma qsum_map_const c l : qsum_map (fun _ => c) l == qlen l * c.
  Proof.
    induction l as [|a l IH]; [reflexivity|].
    rewrite qsum_map_cons, IH, qlen_cons. ring.
  Qed.

Lemma qsum_map_nonneg f l :
    (forall a, In a l -> 0 <= f a) -> 0 <= qsum_map f l.
  Proof.
    induction l as [|a l IH]; intros H; simpl; [lra|].
    assert (0 <= f a) by (apply H; left; auto).
    assert (0 <= qsum_map f l) by (apply IH; intros; apply H; right; auto).
    lra.
  Qed.

Lemma qsum_map_le f g l :
    (forall a, In a l -> f a <= g a) -> qsum_map f l <= qsum_map g l.
  Proof.
    induction l as [|a l IH]; intros H; simpl; [lra|].
    assert (f a <= g a) by (apply H; left; auto).
    assert (qsum_map f l <= qsum_map g l) by (apply IH; intros; apply H; right; auto).
    lra.
  Qed.

(** A sum of non-negative terms is zero only if every term is zero. *)
Lemma qsum_map_nonneg_zero f l :
    (forall a, In a l -> 0 <= f a) -> qsum_map f l == 0 ->
    forall a, In a l -> f a == 0.
  Proof.
    induction l as [|b l IH]; intros Hn Hs a Ha; [destruct Ha|].
    simpl in Hs.
    assert (0 <= f b) by (apply Hn; left; auto).
    assert (0 <= qsum_map f l) by (apply qsum_map_nonneg; intros; apply Hn; right; auto).
    destruct Ha as [<-|Ha]; [lra|].
    apply IH; auto; [intros; apply Hn; right; auto | lra].
  Qed.

Lemma qsum_map_map {B} (h : B -> A) f (l : list B) :
    qsum_map f (map h l) = qsum_map (fun b => f (h b)) l.
  Proof. induction l as [|b l IH]; simpl; congruence. Qed.
End Sums.

Lemma Forall2_map_Qeq {A} (f g : A -> Q) (l : list A) :
  (forall a, In a l -> f a == g a) -> Forall2 Qeq (map f l) (map g l).
Proof.
  induction l as [|a l IH]; intros H; constructor.
  - apply H; left; auto.
  - apply IH; intros; apply H; right; auto.
Qed.

#[export] Instance qsum_map_proper {A} :
  Proper (pointwise_relation A Qeq ==> eq ==> Qeq) (@qsum_map A).
Proof. intros f g Hfg l ? <-. apply qsum_map_ext. intros; apply Hfg. Qed.

(** Sums of pointwise equal lists are equal. *)
Lemma qsum_Forall2 (l1 l2 : list Q) : Forall2 Qeq l1 l2 -> qsum l1 == qsum l2.
Proof.
  induction 1 as [|x y l1 l2 Hxy _ IH]; [reflexivity|].
  unfold qsum in *. rewrite !qsum_map_cons, Hxy, IH. reflexivity.
Qed.

(** A sum of [n] terms each at most [c] is at most [n * c]. *)
Lemma qsum_map_le_const {A} (f : A -> Q) (c : Q) (l : list A) :
  (forall a, In a l -> f a <= c) -> qsum_map f l <= qlen l * c.
Proof.
  intros H. rewrite <- qsum_map_const. apply qsum_map_le. exact H.
Qed.

Lemma Qsquare_nonneg (a : Q) : 0 <= a * a.
Proof. nra. Qed.

Lemma qsum_squares_nonneg {A} (f : A -> Q) (l : list A) : 0 <= Σ[a <- l] (f a * f a).
Proof. apply qsum_map_nonneg. intros; apply Qsquare_nonneg. Qed.

Lemma Qsquare_zero (a : Q) : a * a == 0 -> a == 0.
Proof. intros H. nra. Qed.

(** A sum of squares with a non-zero term is positive. *)
Lemma qsum_squares_pos {A} (f : A -> Q) (l : list A) a :
  In a l -> ~ f a == 0 -> 0 < Σ[x <- l] (f x * f x).
Proof.
  intros Ha Hf. pose proof (qsum_squares_nonneg f l).
  destruct (Qeq_dec (Σ[x <- l] (f x * f x)) 0) as [E|E]; [|lra].
  exfalso. apply Hf, Qsquare_zero.
  exact (qsum_map_nonneg_zero (fun x => f x * f x) l (fun x _ => Qsquare_nonneg (f x)) E a Ha).
Qed.

Lemma qlen_nonneg {A} (l : list A) : 0 <= qlen l.
Proof.
  unfold qlen. change 0 with (inject_Z 0). rewrite <- Zle_Qle. lia.
Qed.

Lemma qlen_pos {A} (l : list A) : l <> [] -> 0 < qlen l.
Proof.
  intros H. unfold qlen. change 0 with (inject_Z 0). rewrite <- Zlt_Qlt.
  destruct l; [congruence|simpl; lia].
Qed.

Lemma qlen_map {A B} (f : A -> B) (l : list A) : qlen (map f l) = qlen l.
Proof. unfold qlen. now rewrite length_map. Qed.

(** The deviations of a list from its mean sum to zero. *)
Lemma qsum_map_sub_mean {A} (f : A -> Q) (l : list A) :
  l <> [] -> qsum_map (fun a => f a - qsum_map f l / qlen l) l == 0.
Proof.
  intros Hl. rewrite qsum_map_minus, qsum_map_const.
  pose proof (qlen_pos l Hl). field. lra.
Qed.

Lemma Qdiv_nonneg (a b : Q) : 0 <= a -> 0 <= b -> 0 <= a / b.
Proof.
  intros Ha Hb. destruct (Qeq_dec b 0) as [E|E].
  - rewrite E. unfold Qdiv. change (/ 0) with 0. rewrite Qmult_0_r. lra.
  - apply Qle_shift_div_l; lra.
Qed.

Lemma qmean_nonneg (l : list Q) : (forall x, In x l -> 0 <= x) -> 0 <= qmean l.
Proof.
  intros H. apply Qdiv_nonneg; [apply qsum_map_nonneg; exact H | apply qlen_nonneg].
Qed.

Lemma qmean_zero (l : list Q) : (forall x, In x l -> x == 0) -> qmean l == 0.
Proof.
  intros H. unfold qmean, qsum.
  rewrite (qsum_map_ext _ (fun _ => 0)) by exact H.
  rewrite qsum_map_const. unfold Qdiv. ring.
Qed.

#[export] Hint Rewrite @qsum_map_app @qsum_map_plus @qsum_map_minus
  @qsum_map_scale @qsum_map_const @qsum_map_map : forecast_sums.
#[export] Hint Resolve qsum_map_nonneg qlen_nonneg qlen_pos Qsquare_nonneg
  qsum_squares_nonneg : forecast.

(** ** Python's [max] and [min] *)

Lemma py_max_spec a b : py_max a b == Qmax a b.
Proof.
  py_cases; unfold Qmax, GenericMinMax.gmax; destruct (Qcompare_spec a b); try lra;
    reflexivity.
Qed.

Lemma py_max_ge_l a b : a <= py_max a b.
Proof. py_cases; lra. Qed.

Lemma py_max_ge_r a b : b <= py_max a b.
Proof. py_cases; lra. Qed.

Lemma py_min_le_l a b : py_min a b <= a.
Proof. py_cases; lra. Qed.

Lemma py_min_le_r a b : py_min a b <= b.
Proof. py_cases; lra. Qed.

#[export] Instance py_max_proper : Proper (Qeq ==> Qeq ==> Qeq) py_max.
Proof. intros a a' Ha b b' Hb. py_cases; lra. Qed.

#[export] Instance py_min_proper : Proper (Qeq ==> Qeq ==> Qeq) py_min.
Proof. intros a a' Ha b b' Hb. py_cases; lra. Qed.

#[export] Hint Resolve py_max_ge_l py_max_ge_r py_min_le_l py_min_le_r : forecast.

(** ** Python's [round] *)

Lemma inject_Z_sub (x y : Z) : inject_Z (x - y) == inject_Z x - inject_Z y.
Proof. unfold Z.sub. rewrite inject_Z_plus, inject_Z_opp. reflexivity. Qed.

Lemma Qfloor_bounds x : inject_Z (Qfloor x) <= x < inject_Z (Qfloor x) + 1.
Proof.
  split; [apply Qfloor_le|].
  pose proof (Qlt_floor x) as H. rewrite inject_Z_plus in H. exact H.
Qed.

#[export] Instance round_half_even_proper : Proper (Qeq ==> eq) round_half_even.
Proof.
  intros x y H. unfold round_half_even. rewrite (Qfloor_comp x y H).
  assert (E : (x - inject_Z (Qfloor y) ?= 1 # 2) = (y - inject_Z (Qfloor y) ?= 1 # 2))
    by (apply Qcompare_comp; [rewrite H|]; reflexivity).
  now rewrite E.
Qed.

(** The rounded value is [floor x] or [floor x + 1], chosen by comparing
    the fractional part with one half. *)
Lemma round_half_even_cases x :
  let f := Qfloor x in
  (x - inject_Z f < 1 # 2 /\ round_half_even x = f) \/
  (x - inject_Z f > 1 # 2 /\ round_half_even x = (f + 1)%Z) \/
  (x - inject_Z f == 1 # 2 /\ Z.even f = true /\ round_half_even x = f) \/
  (x - inject_Z f == 1 # 2 /\ Z.even f = false /\ round_half_even x = (f + 1)%Z).
Proof.
  cbv zeta. unfold round_half_even.
  destruct (Qcompare_spec (x - inject_Z (Qfloor x)) (1 # 2)) as [H|H|H].
  - destruct (Z.even (Qfloor x)) eqn:E; auto 6.
  - auto.
  - auto.
Qed.

(** An exact half goes to the even neighbour. *)
Lemma round_half_even_tie (m : Z) :
  round_half_even (inject_Z m + (1 # 2)) = if Z.even m then m else (m + 1)%Z.
Proof.
  assert (Hf : Qfloor (inject_Z m + (1 # 2)) = m).
  { pose proof (Qfloor_bounds (inject_Z m + (1 # 2))) as [H1 H2].
    set (f := Qfloor _) in *.
    assert (inject_Z f < inject_Z (m + 1)) by (rewrite inject_Z_plus; change (inject_Z 1) with 1; lra).
    assert (inject_Z m < inject_Z (f + 1)) by (rewrite inject_Z_plus; change (inject_Z 1) with 1; lra).
    rewrite <- Zlt_Qlt in *. lia. }
  unfold round_half_even. rewrite Hf.
  replace (inject_Z m + (1 # 2) - inject_Z m ?= 1 # 2) with Eq by (symmetry; apply Qeq_alt; ring).
  reflexivity.
Qed.

(** [round] moves its argument by at most one half. *)
Lemma round_half_even_near x :
  x - (1 # 2) <= inject_Z (round_half_even x) <= x + (1 # 2).
Proof.
  pose proof (Qfloor_bounds x) as Hb.
  destruct (round_half_even_cases x) as [[H ->]|[[H ->]|[[H [_ ->]]|[H [_ ->]]]]];
    rewrite ?inject_Z_plus; change (inject_Z 1) with 1; lra.
Qed.

Lemma round_half_even_Z (z : Z) : round_half_even (inject_Z z) = z.
Proof.
  pose proof (round_half_even_near (inject_Z z)) as [H1 H2].
  assert (Hl : (z - 1 < round_half_even (inject_Z z))%Z).
  { rewrite Zlt_Qlt, inject_Z_sub. change (inject_Z 1) with 1. lra. }
  assert (Hu : (round_half_even (inject_Z z) < z + 1)%Z).
  { rewrite Zlt_Qlt, inject_Z_plus. change (inject_Z 1) with 1. lra. }
  lia.
Qed.

(** [round] is monotone, ties included. *)
Lemma round_half_even_le x y : x <= y -> (round_half_even x <= round_half_even y)%Z.
Proof.
  intros Hxy. pose proof (Qfloor_resp_le x y Hxy) as Hf.
  pose proof (Qfloor_bounds x). pose proof (Qfloor_bounds y).
  destruct (Z.eq_dec (Qfloor x) (Qfloor y)) as [E|E].
  - destruct (round_half_even_cases x) as [[Hx ->]|[[Hx ->]|[[Hx [Ex ->]]|[Hx [Ex ->]]]]];
    destruct (round_half_even_cases y) as [[Hy ->]|[[Hy ->]|[[Hy [Ey ->]]|[Hy [Ey ->]]]]];
      rewrite ?E in *; try lia; rewrite ?E in *; exfalso; try congruence; lra.
  - destruct (round_half_even_cases x) as [[_ ->]|[[_ ->]|[[_ [_ ->]]|[_ [_ ->]]]]];
    destruct (round_half_even_cases y) as [[_ ->]|[[_ ->]|[[_ [_ ->]]|[_ [_ ->]]]]];
      lia.
Qed.

Lemma round_half_even_nonneg x : 0 <= x -> (0 <= round_half_even x)%Z.
Proof.
  intros H. rewrite <- (round_half_even_Z 0). now apply round_half_even_le.
Qed.

#[export] Hint Resolve round_half_even_le round_half_even_nonneg : forecast.
