(* ===== verification/Format.v ===== *)
(** * Python's fixed-point formatting of floats

    Two handlers print numbers into strings with Python's format
    mini-language: [forecast_demand] writes its confidence with
    ["{:.0f}".format(...)] (src/backend/app.py, line 48), and
    [forecast_compare] writes accuracies with [f"{acc*100:.1f}%"] (lines
    87 and 89).  [format_fixed d x] models ["{:.<d>f}"] for a finite
    float [x], as CPython's [float.__format__] does it:
    - it rounds the exact value to [d] decimals, ties to even;
    - it prints a minus sign when [x] is negative, even if the digits
      round to zero ([-0.04] gives ["-0.0"]);
    - it prints the integer part in decimal, then, when [d > 0], a point
      and exactly [d] fractional digits.

    Strings are Stdlib [string]s (bytes).  A non-ASCII literal of the
    code, such as ["±"], is its UTF-8 encoding. *)

From S2P Require Import Prelude.
From Stdlib Require Import QArith ZArith NArith Lqa Lia List String Ascii.
From Stdlib Require Import DecimalString DecimalN.
Import ListNotations.
Open Scope Q_scope.

(** The decimal digits of a natural number, as [str(n)] prints them. *)
Definition dec_string (n : N) : string :=
  NilEmpty.string_of_uint (N.to_uint n).

(** [k] zero digits. *)
Fixpoint zeros (k : nat) : string :=
  match k with
  | O => EmptyString
  | S k' => String "0" (zeros k')
  end.

(** Left padding with zeros to width [d] (the fractional digits). *)
Definition zero_pad (d : nat) (s : string) : string :=
  (zeros (d - String.length s) ++ s)%string.

(** The value of [x] scaled by [10^d] and rounded, ties to even. *)
Definition scaled_round (d : nat) (x : Q) : Z :=
  round_half_even (x * inject_Z (10 ^ Z.of_nat d)).

(** ["{:.<d>f}".format(x)]. *)
Definition format_fixed (d : nat) (x : Q) : string :=
  let a := Z.abs (scaled_round d x) in
  let sign := if Qlt_le_dec x 0 then "-"%string else EmptyString in
  let ip := Z.to_N (a / 10 ^ Z.of_nat d) in
  let fp := Z.to_N (a mod 10 ^ Z.of_nat d) in
  match d with
  | O => (sign ++ dec_string ip)%string
  | S _ => (sign ++ dec_string ip ++ "." ++ zero_pad d (dec_string fp))%string
  end.

(** ** Lemmas *)

#[export] Instance scaled_round_proper d : Proper (Qeq ==> eq) (scaled_round d).
Proof. intros x y H. unfold scaled_round. now rewrite H. Qed.

#[export] Instance format_fixed_proper d : Proper (Qeq ==> eq) (format_fixed d).
Proof.
  intros x y H. unfold format_fixed.
  assert (E : scaled_round d x = scaled_round d y) by now rewrite H.
  rewrite E. destruct (Qlt_le_dec x 0), (Qlt_le_dec y 0); try reflexivity; exfalso; lra.
Qed.

Lemma string_length_append (s1 s2 : string) :
  String.length (s1 ++ s2) = (String.length s1 + String.length s2)%nat.
Proof. induction s1; simpl; auto. Qed.

Lemma string_append_assoc (s1 s2 s3 : string) : ((s1 ++ s2) ++ s3 = s1 ++ (s2 ++ s3))%string.
Proof. induction s1; simpl; congruence. Qed.

Lemma length_zeros k : String.length (zeros k) = k.
Proof. induction k; simpl; auto. Qed.

Lemma zero_pad_length d s : (String.length s <= d)%nat -> String.length (zero_pad d s) = d.
Proof. intros H. unfold zero_pad. rewrite string_length_append, length_zeros. lia. Qed.

(** A number below 10 prints as one digit, so padding to width 1 keeps it. *)
Lemma zero_pad_digit (n : N) : (n < 10)%N -> zero_pad 1 (dec_string n) = dec_string n.
Proof.
  intros H.
  assert (Hall : forall k, In k (seq 0 10) -> zero_pad 1 (dec_string (N.of_nat k)) = dec_string (N.of_nat k)).
  { intros k Hk. repeat (destruct Hk as [<-|Hk]; [reflexivity|]). destruct Hk. }
  rewrite <- (N2Nat.id n). apply Hall, in_seq. lia.
Qed.

(** With one decimal, a non-negative number prints as [m / 10], a point
    and the digit [m mod 10], where [m] is the number of tenths. *)
Lemma format_fixed_1 x :
  0 <= x ->
  let m := Z.to_N (scaled_round 1 x) in
  format_fixed 1 x = (dec_string (m / 10) ++ "." ++ dec_string (m mod 10))%string.
Proof.
  intros Hx. cbv zeta. unfold format_fixed.
  destruct (Qlt_le_dec x 0) as [H|_]; [lra|].
  assert (Hm : (0 <= scaled_round 1 x)%Z).
  { apply round_half_even_nonneg. change 0 with (0 * inject_Z (10 ^ Z.of_nat 1)).
    apply Qmult_le_compat_r; [exact Hx|discriminate]. }
  rewrite Z.abs_eq by exact Hm. simpl (10 ^ Z.of_nat 1)%Z.
  rewrite Z2N.inj_div, Z2N.inj_mod by lia.
  rewrite zero_pad_digit by (apply N.mod_lt; discriminate). reflexivity.
Qed.

(** With no decimals, a non-negative number prints as the decimal digits of
    its rounded value. *)
Lemma format_fixed_0 x :
  0 <= x -> format_fixed 0 x = dec_string (Z.to_N (round_half_even x)).
Proof.
  intros Hx. unfold format_fixed, scaled_round. simpl Z.pow.
  destruct (Qlt_le_dec x 0) as [H|_]; [lra|].
  rewrite Qmult_1_r, Z.div_1_r, Z.abs_eq by (now apply round_half_even_nonneg).
  reflexivity.
Qed.
