(* ===== verification/Json.v ===== *)
(** * JSON request bodies and the Python operations the handlers apply to them

    Every POST handler of [src/backend/app.py] starts with
    [data = request.get_json(force=True) or {}].  It then reads fields with
    [data.get(key, default)], iterates over lists with [for], and converts
    values with [float()] or [int()].  Any of these can raise when the body
    has an unexpected shape: [.get] on a list, iterating over [None],
    [float(None)], [float("abc")].  Flask then answers 500.  A body that
    is not JSON at all makes [get_json] raise [BadRequest], answered 400.

    - [json] is the Python value that [json.loads] produces: [None],
      [bool], [int], [float], [str], [list] or [dict].  A [dict] is
      listed as its items, in order; a decoded JSON object has distinct
      keys.
    - [py_exc] names the exceptions that can be raised, and [pyres] is the
      outcome of a Python computation: a value, an exception, or
      [NonFinite].  [NonFinite] means that the computation went on with
      [inf] or [nan], which this model does not represent.
    - [get_json_force] is [request.get_json(force=True)] on a body that
      parsed ([Some v]) or did not ([None]).
    - [truthy], [or_empty], [py_get], [py_iter], [py_len] and [py_index]
      are Python's [bool()], [x or {}], [dict.get], [for x in v], [len]
      and [v[i]] on these values. *)

From S2P Require Import Prelude.
From Stdlib Require Import QArith ZArith Lia List String Ascii.
Import ListNotations.
Open Scope Q_scope.

Inductive json : Type :=
| JNull
| JBool (b : bool)
| JInt (z : Z)
| JFloat (q : Q)
| JStr (s : string)
| JArr (items : list json)
| JObj (fields : list (string * json)).

Inductive py_exc : Type :=
| AttributeError
| TypeError
| ValueError
| KeyError
| IndexError
| OverflowError
| BadRequest.

Inductive pyres (A : Type) : Type :=
| Ok (a : A)
| Raise (e : py_exc)
| NonFinite.

Arguments Ok {A} a.
Arguments Raise {A} e.
Arguments NonFinite {A}.

(** ** The outcome monad *)

Definition pbind {A B} (c : pyres A) (k : A -> pyres B) : pyres B :=
  match c with
  | Ok a => k a
  | Raise e => Raise e
  | NonFinite => NonFinite
  end.

Declare Scope py_scope.
Delimit Scope py_scope with py.
Notation "'let*' x ':=' c 'in' k" := (pbind c (fun x => k))
  (at level 65, x name, c at next level, right associativity) : py_scope.
Open Scope py_scope.

(** A list comprehension [[f(x) for x in xs]]: left to right, and the first
    exception ends it. *)
Fixpoint pmap {A B} (f : A -> pyres B) (l : list A) : pyres (list B) :=
  match l with
  | [] => Ok []
  | a :: l' => let* b := f a in let* bs := pmap f l' in Ok (b :: bs)
  end.

(** ** Python operations on values *)

(** [bool(v)]. *)
Definition truthy (v : json) : bool :=
  match v with
  | JNull => false
  | JBool b => b
  | JInt z => negb (Z.eqb z 0)
  | JFloat q => negb (Qeq_bool q 0)
  | JStr s => negb (String.eqb s EmptyString)
  | JArr l => negb (match l with [] => true | _ => false end)
  | JObj fs => negb (match fs with [] => true | _ => false end)
  end.

(** [request.get_json(force=True)]: the body parsed as JSON whatever its
    content type.  [None] stands for a body that is not valid JSON, on
    which werkzeug raises [BadRequest]. *)
Definition get_json_force (body : option json) : pyres json :=
  match body with
  | Some v => Ok v
  | None => Raise BadRequest
  end.

(** [... or {}] on the parsed body. *)
Definition or_empty (v : json) : json := if truthy v then v else JObj [].

(** The value stored under a key of a dict. *)
Fixpoint lookup_field (k : string) (fs : list (string * json)) : option json :=
  match fs with
  | [] => None
  | (k', v) :: fs' => if String.eqb k k' then Some v else lookup_field k fs'
  end.

(** [d.get(k, dflt)]; any value other than a dict has no [get]. *)
Definition py_get (d : json) (k : string) (dflt : json) : pyres json :=
  match d with
  | JObj fs => Ok (match lookup_field k fs with Some v => v | None => dflt end)
  | _ => Raise AttributeError
  end.

(** A one-character string. *)
Definition char_str (c : ascii) : json := JStr (String c EmptyString).

(** The values [for x in v] visits: a list's items, a string's characters,
    a dict's keys.  Numbers, booleans and [None] are not iterable. *)
Definition py_iter (v : json) : pyres (list json) :=
  match v with
  | JArr l => Ok l
  | JStr s => Ok (map char_str (list_ascii_of_string s))
  | JObj fs => Ok (map (fun kv => JStr (fst kv)) fs)
  | _ => Raise TypeError
  end.

(** [len(v)]. *)
Definition py_len (v : json) : pyres nat :=
  match v with
  | JArr l => Ok (List.length l)
  | JStr s => Ok (String.length s)
  | JObj fs => Ok (List.length fs)
  | _ => Raise TypeError
  end.

(** [v[i]] for a non-negative integer [i]: a dict has string keys, so an
    integer subscript is a [KeyError]. *)
Definition py_index (v : json) (i : nat) : pyres json :=
  match v with
  | JArr l => match nth_error l i with Some x => Ok x | None => Raise IndexError end
  | JStr s => match String.get i s with Some c => Ok (char_str c) | None => Raise IndexError end
  | JObj _ => Raise KeyError
  | _ => Raise TypeError
  end.

(** ** Lemmas *)

Lemma pmap_ok_length {A B} (f : A -> pyres B) l l' : pmap f l = Ok l' -> List.length l' = List.length l.
Proof.
  revert l'; induction l as [|a l IH]; simpl; intros l' H.
  - now injection H as <-.
  - destruct (f a); try discriminate. simpl in H.
    destruct (pmap f l); try discriminate. simpl in H. injection H as <-. simpl. f_equal; auto.
Qed.

(** A comprehension whose every step succeeds returns the values of the steps. *)
Lemma pmap_map_ok {A B} (f : A -> pyres B) (g : A -> B) l :
  (forall a, In a l -> f a = Ok (g a)) -> pmap f l = Ok (map g l).
Proof.
  induction l as [|a l IH]; intros H; simpl; [reflexivity|].
  rewrite (H a (or_introl eq_refl)). simpl. rewrite IH by (intros; apply H; right; auto).
  reflexivity.
Qed.

(** A comprehension raises the exception of the first element that raises:
    the elements before it convert, those after it are never looked at. *)
Lemma pmap_first_raise {A B} (f : A -> pyres B) pre a post bs e :
  pmap f pre = Ok bs -> f a = Raise e -> pmap f (pre ++ a :: post) = Raise e.
Proof.
  revert bs; induction pre as [|x pre IH]; intros bs Hpre Ha; simpl.
  - now rewrite Ha.
  - simpl in Hpre. destruct (f x); try discriminate. simpl in Hpre |- *.
    destruct (pmap f pre) eqn:E; try discriminate. now rewrite (IH _ eq_refl Ha).
Qed.

Lemma pmap_map {A B C} (f : B -> pyres C) (h : A -> B) (l : list A) :
  pmap f (map h l) = pmap (fun a => f (h a)) l.
Proof. induction l as [|a l IH]; simpl; [reflexivity|]. now rewrite IH. Qed.

Lemma pmap_ext {A B} (f g : A -> pyres B) (l : list A) :
  (forall a, In a l -> f a = g a) -> pmap f l = pmap g l.
Proof.
  induction l as [|a l IH]; intros H; simpl; [reflexivity|].
  rewrite (H a (or_introl eq_refl)), IH by (intros; apply H; right; auto). reflexivity.
Qed.

Lemma lookup_field_head k v fs : lookup_field k ((k, v) :: fs) = Some v.
Proof. simpl. now rewrite String.eqb_refl. Qed.

(** [or {}] keeps a dict: a non-empty one is truthy, an empty one is [{}]. *)
Lemma or_empty_obj fs : or_empty (JObj fs) = JObj fs.
Proof. now destruct fs. Qed.

Lemma py_get_head k v fs dflt : py_get (JObj ((k, v) :: fs)) k dflt = Ok v.
Proof. unfold py_get. now rewrite lookup_field_head. Qed.

Lemma string_get_nth (s : string) i : String.get i s = nth_error (list_ascii_of_string s) i.
Proof. revert i; induction s as [|c s IH]; intros [|i]; simpl; auto. Qed.

Lemma string_length_list (s : string) : String.length s = List.length (list_ascii_of_string s).
Proof. induction s as [|c s IH]; simpl; auto. Qed.

(** [jsonify] of a Python number. *)
Definition encode_pynum (n : pynum) : json :=
  match n with
  | PyInt z => JInt z
  | PyFloat q => JFloat q
  end.

(** [float(x)] for each [x] of a list that [jsonify] printed. *)
Definition json_floats (l : list Q) : json := JArr (map JFloat l).
