(* ===== verification/PyConv.v ===== *)
(** * Python's [float()] and [int()] on decoded JSON values

    The handlers convert request fields with [float(...)] (the series
    values, the units, the residual operands, the compare rows) and with
    [int(...)] (the demand horizon).  This file models both builtins on
    the values of [Json].
    - On an [int], [float] is exact below the overflow threshold and
      raises [OverflowError] above it, as CPython's [int.__float__] does.
    - On a [float], [int] truncates toward zero.
    - On a [bool], both give 0 or 1.
    - On [None], a list or a dict, both raise [TypeError].
    - On a string, they parse it as CPython does for ASCII input.  They
      strip whitespace, accept an optional sign, and accept digits with
      single underscores between them.  For [float] there is also a
      fraction, an exponent, and the words [inf], [infinity] and [nan] in
      any case.  Anything else is a [ValueError].

    A float that would be infinite or not a number ([float("nan")],
    [float("1e400")]) is [NonFinite]: the code goes on with it, but the
    model does not.  Unicode digits and whitespace, which CPython also
    accepts, are not modelled: strings are ASCII here.

    The last section reads back what [Format.format_fixed] prints: the
    digits of [dec_string] through [DecimalString], and
    [float_of_format_fixed], which says that [float()] of a formatted
    number is the number rounded at the printed precision. *)

From S2P Require Import Prelude Format Json.
From Stdlib Require Import QArith Qabs Qround ZArith NArith Lia Lqa List String Ascii.
From Stdlib Require Import DecimalString DecimalN DecimalPos DecimalFacts.
Import ListNotations.
Open Scope Q_scope.
Open Scope py_scope.

(** ** Characters *)

Definition is_digit (c : ascii) : bool :=
  let n := nat_of_ascii c in (48 <=? n)%nat && (n <=? 57)%nat.

Definition digit_value (c : ascii) : Z := Z.of_nat (nat_of_ascii c - 48).

(** [Py_ISSPACE] after CPython maps Unicode whitespace to a space: tab,
    line feed, vertical tab, form feed, carriage return, the separators
    0x1c-0x1f and the space. *)
Definition is_py_space (c : ascii) : bool :=
  let n := nat_of_ascii c in ((9 <=? n)%nat && (n <=? 13)%nat) || ((28 <=? n)%nat && (n <=? 32)%nat).

Definition lower_ascii (c : ascii) : ascii :=
  let n := nat_of_ascii c in
  if (65 <=? n)%nat && (n <=? 90)%nat then ascii_of_nat (n + 32) else c.

(** ** Scanning *)

Fixpoint drop_spaces (l : list ascii) : list ascii :=
  match l with
  | c :: l' => if is_py_space c then drop_spaces l' else l
  | [] => []
  end.

(** [s.strip()] of the whitespace above. *)
Definition strip (l : list ascii) : list ascii := rev (drop_spaces (rev (drop_spaces l))).

(** An optional sign: its factor and the rest. *)
Definition parse_sign (l : list ascii) : Z * list ascii :=
  match l with
  | "+"%char :: l' => (1%Z, l')
  | "-"%char :: l' => ((-1)%Z, l')
  | _ => (1%Z, l)
  end.

(** The rest of a digit run after its first digit: digits, each possibly
    preceded by one underscore.  Returns the value, the number of digits
    and what follows. *)
Fixpoint digit_run (l : list ascii) (acc : Z) (n : nat) : Z * nat * list ascii :=
  match l with
  | c :: l' =>
      if is_digit c then digit_run l' (acc * 10 + digit_value c)%Z (S n)
      else if Ascii.eqb c "_" then
        match l' with
        | c2 :: l'' => if is_digit c2 then digit_run l'' (acc * 10 + digit_value c2)%Z (S n)
                       else (acc, n, l)
        | [] => (acc, n, l)
        end
      else (acc, n, l)
  | [] => (acc, n, l)
  end.

(** A [digitpart] of the grammar: it must start with a digit. *)
Definition digitpart (l : list ascii) : option (Z * nat * list ascii) :=
  match l with
  | c :: _ => if is_digit c then Some (digit_run l 0 0) else None
  | [] => None
  end.

(** The exponent suffix [e[sign]digitpart], or nothing. *)
Definition parse_exponent (l : list ascii) : option Z :=
  match l with
  | [] => Some 0%Z
  | c :: l' =>
      if Ascii.eqb (lower_ascii c) "e" then
        let '(s, l'') := parse_sign l' in
        match digitpart l'' with
        | Some (e, _, []) => Some (s * e)%Z
        | _ => None
        end
      else None
  end.

(** [number [exponent]]: digits, an optional point and fraction, at least
    one digit in all, then the exponent; nothing may follow. *)
Definition parse_unsigned_float (l : list ascii) : option Q :=
  let '(m1, n1, r1) := match digitpart l with Some x => x | None => (0%Z, O, l) end in
  let '(m2, n2, r2) :=
    match r1 with
    | "."%char :: r1' => match digitpart r1' with Some x => x | None => (0%Z, O, r1') end
    | _ => (0%Z, O, r1)
    end in
  if (n1 + n2 =? 0)%nat then None
  else match parse_exponent r2 with
       | Some e => Some (inject_Z (m1 * 10 ^ Z.of_nat n2 + m2) * (10 ^ e) / inject_Z (10 ^ Z.of_nat n2))
       | None => None
       end.

(** [inf], [infinity] or [nan] in any case. *)
Definition is_inf_or_nan (l : list ascii) : bool :=
  let w := string_of_list_ascii (map lower_ascii l) in
  String.eqb w "inf" || String.eqb w "infinity" || String.eqb w "nan".

(** The least magnitude that rounds to infinity: [2^1024 - 2^970]. *)
Definition float_overflow_bound : Q := inject_Z (2 ^ 1024 - 2 ^ 970).

Definition float_overflows (q : Q) : bool := Qle_bool float_overflow_bound (Qabs q).

(** [float(s)] for a string. *)
Definition float_of_string (s : string) : pyres Q :=
  let '(sg, l) := parse_sign (strip (list_ascii_of_string s)) in
  if is_inf_or_nan l then NonFinite
  else match parse_unsigned_float l with
       | Some q => let v := inject_Z sg * q in if float_overflows v then NonFinite else Ok v
       | None => Raise ValueError
       end.

(** [int(s)] for a string, in base 10. *)
Definition int_of_string (s : string) : pyres Z :=
  let '(sg, l) := parse_sign (strip (list_ascii_of_string s)) in
  match digitpart l with
  | Some (m, _, []) => Ok (sg * m)%Z
  | _ => Raise ValueError
  end.

(** ** The builtins *)

(** Truncation toward zero, as [int(x)] for a float. *)
Definition Qtrunc (q : Q) : Z :=
  if Qle_bool 0 q then Qfloor q else (- Qfloor (- q))%Z.

(** [float(v)]. *)
Definition py_float (v : json) : pyres Q :=
  match v with
  | JInt z => if float_overflows (inject_Z z) then Raise OverflowError else Ok (inject_Z z)
  | JFloat q => Ok q
  | JBool b => Ok (if b then 1 else 0)
  | JStr s => float_of_string s
  | JNull | JArr _ | JObj _ => Raise TypeError
  end.

(** [int(v)]. *)
Definition py_int (v : json) : pyres Z :=
  match v with
  | JInt z => Ok z
  | JFloat q => Ok (Qtrunc q)
  | JBool b => Ok (if b then 1%Z else 0%Z)
  | JStr s => int_of_string s
  | JNull | JArr _ | JObj _ => Raise TypeError
  end.

(** ** Lemmas *)

(** [float()] of a one-digit string is the digit's value. *)
Lemma float_of_digit (c : ascii) :
  is_digit c = true -> float_of_string (String c EmptyString) = Ok (inject_Z (digit_value c)).
Proof. destruct c as [[] [] [] [] [] [] [] []]; intros H; (discriminate H || reflexivity). Qed.

(** ** Reading back what [format_fixed] prints *)

(** The value of a run of digits read left to right from [acc]. *)
Definition digits_val (l : list ascii) (acc : Z) : Z :=
  fold_left (fun a c => a * 10 + digit_value c)%Z l acc.

Lemma digit_value_bounds c : is_digit c = true -> (0 <= digit_value c < 10)%Z.
Proof. destruct c as [[] [] [] [] [] [] [] []]; intros H; (discriminate H || (vm_compute; split; congruence)). Qed.

Lemma digits_val_acc l acc :
  forallb is_digit l = true -> digits_val l acc = (acc * 10 ^ Z.of_nat (List.length l) + digits_val l 0)%Z.
Proof.
  revert acc; induction l as [|c l IH]; intros acc Hd; [unfold digits_val; simpl; lia|].
  cbn [forallb] in Hd. apply andb_prop in Hd as [_ Hd]. unfold digits_val in *.
  cbn [fold_left List.length].
  rewrite (IH (acc * 10 + digit_value c)%Z Hd), (IH (0 * 10 + digit_value c)%Z Hd).
  rewrite Nat2Z.inj_succ, Z.pow_succ_r by lia. ring.
Qed.

Lemma digits_val_nonneg l : forallb is_digit l = true -> (0 <= digits_val l 0)%Z.
Proof.
  induction l as [|c l IH] using rev_ind; intros Hd; [reflexivity|].
  rewrite forallb_app in Hd. apply andb_prop in Hd as [Hl Hc]. simpl in Hc.
  apply andb_prop in Hc as [Hc _]. unfold digits_val in *. rewrite fold_left_app. simpl.
  pose proof (digit_value_bounds c Hc). specialize (IH Hl). lia.
Qed.

(** A digit run ends at the first character that is neither a digit nor
    an underscore. *)
Definition run_stops (rest : list ascii) : Prop :=
  match rest with
  | c :: _ => is_digit c = false /\ Ascii.eqb c "_" = false
  | [] => True
  end.

Lemma digit_run_digits l rest acc n :
  forallb is_digit l = true -> run_stops rest ->
  digit_run (l ++ rest) acc n = (digits_val l acc, (n + List.length l)%nat, rest).
Proof.
  revert acc n; induction l as [|c l IH]; intros acc n Hd Hr.
  - simpl. rewrite Nat.add_0_r. destruct rest as [|c rest]; [reflexivity|].
    destruct Hr as [H1 H2]. simpl. now rewrite H1, H2.
  - simpl in Hd. apply andb_prop in Hd as [Hc Hd]. simpl. rewrite Hc.
    rewrite IH by assumption. f_equal. f_equal. lia.
Qed.

(** The characters [string_of_uint] prints. *)
Definition uint_chars (d : Decimal.uint) : list ascii :=
  list_ascii_of_string (NilEmpty.string_of_uint d).

Lemma uint_chars_digits d : forallb is_digit (uint_chars d) = true.
Proof. induction d; simpl; auto. Qed.

Lemma uint_chars_length d : List.length (uint_chars d) = Decimal.nb_digits d.
Proof. induction d; simpl; auto. Qed.

Lemma uint_chars_val_acc d (acc : positive) :
  digits_val (uint_chars d) (Z.pos acc) = Z.pos (Pos.of_uint_acc d acc).
Proof.
  revert acc; induction d; intros acc; [reflexivity| ..]; unfold uint_chars, digits_val in *;
    cbn [NilEmpty.string_of_uint list_ascii_of_string fold_left Pos.of_uint_acc];
    rewrite <- IHd; f_equal; cbv [digit_value]; simpl nat_of_ascii; simpl Nat.sub;
    rewrite ?Pos2Z.inj_add, ?Pos2Z.inj_mul; lia.
Qed.

Lemma uint_chars_val d : digits_val (uint_chars d) 0 = Z.of_N (Pos.of_uint d).
Proof.
  induction d; [reflexivity|exact IHd| ..]; unfold uint_chars, digits_val in *; simpl;
    rewrite <- uint_chars_val_acc; reflexivity.
Qed.

(** The characters of [dec_string n]. *)
Definition dec_chars (n : N) : list ascii := uint_chars (N.to_uint n).

Lemma dec_chars_val n : digits_val (dec_chars n) 0 = Z.of_N n.
Proof. unfold dec_chars. rewrite uint_chars_val. change (Pos.of_uint _) with (N.of_uint (N.to_uint n)). now rewrite DecimalN.Unsigned.of_to. Qed.

Lemma dec_chars_digits n : forallb is_digit (dec_chars n) = true.
Proof. apply uint_chars_digits. Qed.

Lemma digits_val_cons c l :
  forallb is_digit l = true ->
  digits_val (c :: l) 0 = (digit_value c * 10 ^ Z.of_nat (List.length l) + digits_val l 0)%Z.
Proof. intros Hd. unfold digits_val at 1. cbn [fold_left]. fold (digits_val l (0 * 10 + digit_value c)%Z). now rewrite digits_val_acc. Qed.

(** A numeral without leading zero is at least [10 ^ (digits - 1)]. *)
Lemma uint_lead_bound d :
  d <> Decimal.Nil -> (forall d', d <> Decimal.D0 d') ->
  (10 ^ Z.of_nat (Decimal.nb_digits d - 1) <= digits_val (uint_chars d) 0)%Z.
Proof.
  intros Hn Hz. destruct d as [|d|d|d|d|d|d|d|d|d|d]; [congruence|now destruct (Hz d)|..];
    unfold uint_chars at 1; cbn [NilEmpty.string_of_uint list_ascii_of_string Decimal.nb_digits];
    fold (uint_chars d); rewrite digits_val_cons by apply uint_chars_digits;
    rewrite uint_chars_length, Nat.sub_succ, Nat.sub_0_r; cbv [digit_value]; simpl nat_of_ascii; simpl Nat.sub;
    pose proof (digits_val_nonneg _ (uint_chars_digits d));
    pose proof (Z.pow_nonneg 10 (Z.of_nat (Decimal.nb_digits d)) ltac:(lia)); simpl Z.of_nat; lia.
Qed.

Lemma dec_chars_nonempty n : dec_chars n <> [].
Proof.
  unfold dec_chars. destruct n as [|p]; [discriminate|]. cbn [N.to_uint].
  pose proof (DecimalPos.Unsigned.to_uint_nonnil p) as H.
  destruct (Pos.to_uint p); [congruence|discriminate..].
Qed.

(** [dec_string n] has at most [k] digits when [n < 10 ^ k]. *)
Lemma dec_chars_length n k :
  (1 <= k)%nat -> (Z.of_N n < 10 ^ Z.of_nat k)%Z -> (List.length (dec_chars n) <= k)%nat.
Proof.
  intros Hk Hn. unfold dec_chars. destruct n as [|p]; [simpl; lia|]. cbn [N.to_uint].
  set (d := Pos.to_uint p).
  assert (Hnorm : d = Decimal.unorm d).
  { unfold d. rewrite <- (DecimalPos.Unsigned.to_of (Pos.to_uint p)), DecimalPos.Unsigned.of_to. reflexivity. }
  assert (Hnz : Decimal.nzhead d <> Decimal.Nil).
  { intros E. apply (DecimalPos.Unsigned.to_uint_nonzero p). fold d. rewrite Hnorm.
    now apply unorm_0. }
  assert (Hd0 : forall d', d <> Decimal.D0 d').
  { intros d' E. rewrite Hnorm, (unorm_nzhead d Hnz) in E. exact (nzhead_nonzero d d' E). }
  pose proof (uint_lead_bound d (DecimalPos.Unsigned.to_uint_nonnil p) Hd0) as Hb.
  assert (Hv : digits_val (uint_chars d) 0 = Z.pos p).
  { rewrite uint_chars_val. unfold d. now rewrite DecimalPos.Unsigned.of_to. }
  rewrite Hv in Hb. rewrite uint_chars_length.
  destruct (Nat.le_gt_cases (Decimal.nb_digits d) k) as [|Hgt]; [assumption|].
  assert (Z.of_nat k <= Z.of_nat (Decimal.nb_digits d - 1))%Z by lia.
  pose proof (Z.pow_le_mono_r 10 _ _ ltac:(lia) H). simpl in Hn. lia.
Qed.

Lemma list_ascii_of_string_app (s1 s2 : string) :
  list_ascii_of_string (s1 ++ s2) = list_ascii_of_string s1 ++ list_ascii_of_string s2.
Proof. induction s1 as [|c s1 IH]; simpl; [reflexivity|]. now rewrite IH. Qed.

Lemma digit_not_space c : is_digit c = true -> is_py_space c = false.
Proof. destruct c as [[] [] [] [] [] [] [] []]; intros H; (discriminate H || reflexivity). Qed.

Lemma parse_sign_digit c l : is_digit c = true -> parse_sign (c :: l) = (1%Z, c :: l).
Proof. destruct c as [[] [] [] [] [] [] [] []]; intros H; (discriminate H || reflexivity). Qed.

Lemma inf_nan_digit c l : is_digit c = true -> is_inf_or_nan (c :: l) = false.
Proof. destruct c as [[] [] [] [] [] [] [] []]; intros H; (discriminate H || reflexivity). Qed.

Lemma drop_spaces_id l : forallb (fun c => negb (is_py_space c)) l = true -> drop_spaces l = l.
Proof. destruct l as [|c l]; [reflexivity|]. simpl. intros H. apply andb_prop in H as [H _]. now destruct (is_py_space c). Qed.

(** [strip] keeps a string without whitespace. *)
Lemma strip_id l : forallb (fun c => negb (is_py_space c)) l = true -> strip l = l.
Proof.
  intros H. unfold strip. rewrite (drop_spaces_id l H), drop_spaces_id, rev_involutive; [reflexivity|].
  apply forallb_forall. intros c Hc. apply in_rev in Hc. rewrite forallb_forall in H. now apply H.
Qed.

Lemma digits_no_space l : forallb is_digit l = true -> forallb (fun c => negb (is_py_space c)) l = true.
Proof.
  rewrite !forallb_forall. intros H c Hc. now rewrite digit_not_space by (apply H, Hc).
Qed.

Lemma zeros_chars k : list_ascii_of_string (zeros k) = repeat "0"%char k.
Proof. induction k; simpl; congruence. Qed.

Lemma zeros_digits k : forallb is_digit (repeat "0"%char k) = true.
Proof. induction k; simpl; auto. Qed.

Lemma digits_val_zeros k l : digits_val (repeat "0"%char k ++ l) 0 = digits_val l 0.
Proof. unfold digits_val. rewrite fold_left_app. f_equal. induction k; simpl; auto. Qed.

Lemma digitpart_digits l rest :
  l <> [] -> forallb is_digit l = true -> run_stops rest ->
  digitpart (l ++ rest) = Some (digits_val l 0, List.length l, rest).
Proof.
  intros Hne Hd Hr. destruct l as [|c l']; [congruence|].
  pose proof Hd as Hd'. cbn [forallb] in Hd'. apply andb_prop in Hd' as [Hc _].
  cbn [app digitpart]. rewrite Hc. change (c :: l' ++ rest) with ((c :: l') ++ rest).
  now rewrite digit_run_digits.
Qed.

(** The digits [format_fixed] prints after the sign. *)
Definition fixed_body (d : nat) (ip fp : N) : string :=
  match d with
  | O => dec_string ip
  | S _ => (dec_string ip ++ "." ++ zero_pad d (dec_string fp))%string
  end.

Lemma dec_string_chars n : list_ascii_of_string (dec_string n) = dec_chars n.
Proof. reflexivity. Qed.

Lemma read_fixed_body d ip fp :
  (Z.of_N fp < 10 ^ Z.of_nat d)%Z ->
  exists q, parse_unsigned_float (list_ascii_of_string (fixed_body d ip fp)) = Some q /\
    q == inject_Z (Z.of_N ip * 10 ^ Z.of_nat d + Z.of_N fp) / inject_Z (10 ^ Z.of_nat d).
Proof.
  intros Hfp. destruct d as [|d'].
  - assert (fp = 0%N) by lia. subst fp. cbn [fixed_body]. rewrite dec_string_chars.
    rewrite <- (List.app_nil_r (dec_chars ip)). unfold parse_unsigned_float.
    rewrite digitpart_digits by (apply dec_chars_nonempty || apply dec_chars_digits || exact I).
    destruct (List.length (dec_chars ip)) eqn:El; [now destruct (dec_chars_nonempty ip); apply length_zero_iff_nil|].
    eexists; split; [reflexivity|]. rewrite dec_chars_val. simpl. field. 
  - set (d := S d') in *.
    assert (Hlen : (List.length (dec_chars fp) <= d)%nat) by (apply dec_chars_length; [lia|exact Hfp]).
    set (pad := repeat "0"%char (d - List.length (dec_chars fp)) ++ dec_chars fp).
    assert (Hb : list_ascii_of_string (fixed_body d ip fp) = dec_chars ip ++ "."%char :: pad ++ []).
    { unfold fixed_body, d, zero_pad. rewrite !list_ascii_of_string_app, zeros_chars, string_length_list,
        List.app_nil_r. reflexivity. }
    assert (Hpd : forallb is_digit pad = true)
      by (unfold pad; rewrite forallb_app, zeros_digits, dec_chars_digits; reflexivity).
    assert (Hpn : pad <> []) by (unfold pad; intros E; apply app_eq_nil in E as [_ E]; exact (dec_chars_nonempty fp E)).
    assert (Hpl : List.length pad = d) by (unfold pad; rewrite length_app, repeat_length; lia).
    assert (Hpv : digits_val pad 0 = Z.of_N fp) by (unfold pad; rewrite digits_val_zeros; apply dec_chars_val).
    rewrite Hb. unfold parse_unsigned_float.
    rewrite digitpart_digits by (apply dec_chars_nonempty || apply dec_chars_digits || (split; reflexivity)).
    rewrite (digitpart_digits pad []) by (assumption || exact I).
    rewrite Hpl, Hpv, dec_chars_val.
    replace (List.length (dec_chars ip) + d =? 0)%nat with false by (symmetry; apply Nat.eqb_neq; unfold d; lia).
    eexists; split; [reflexivity|]. simpl (10 ^ 0). field.
    intros E. unfold Qeq in E. simpl in E. pose proof (Z.pow_pos_nonneg 10 (Z.of_nat d)). lia.
Qed.

Lemma fixed_body_shape d ip fp :
  exists c l, list_ascii_of_string (fixed_body d ip fp) = c :: l /\ is_digit c = true /\
              forallb (fun c => negb (is_py_space c)) (c :: l) = true.
Proof.
  assert (Hb : exists rest, list_ascii_of_string (fixed_body d ip fp) = dec_chars ip ++ rest /\
                            forallb (fun c => negb (is_py_space c)) rest = true).
  { destruct d as [|d']; [exists []; split; [symmetry; apply List.app_nil_r|reflexivity]|].
    eexists; split; [cbn [fixed_body]; rewrite list_ascii_of_string_app; reflexivity|].
    unfold zero_pad. rewrite !list_ascii_of_string_app, !forallb_app, zeros_chars.
    change (list_ascii_of_string (dec_string fp)) with (dec_chars fp).
    rewrite (digits_no_space _ (zeros_digits _)), (digits_no_space _ (dec_chars_digits fp)).
    reflexivity. }
  destruct Hb as (rest & Hb & Hr). pose proof (dec_chars_digits ip) as Hd.
  destruct (dec_chars ip) as [|c l] eqn:E; [now destruct (dec_chars_nonempty ip)|].
  exists c, (l ++ rest). rewrite Hb. split; [reflexivity|].
  cbn [forallb] in Hd. apply andb_prop in Hd as [Hc Hl]. split; [exact Hc|].
  change (c :: l ++ rest) with ((c :: l) ++ rest).
  rewrite forallb_app, Hr, digits_no_space; [reflexivity|]. cbn [forallb]. now rewrite Hc, Hl.
Qed.

Lemma scaled_round_sign d x :
  (x < 0 -> (scaled_round d x <= 0)%Z) /\ (0 <= x -> (0 <= scaled_round d x)%Z).
Proof.
  assert (HP : 0 < inject_Z (10 ^ Z.of_nat d)).
  { change 0 with (inject_Z 0). rewrite <- Zlt_Qlt. apply Z.pow_pos_nonneg; lia. }
  unfold scaled_round. split; intros Hx.
  - rewrite <- (round_half_even_Z 0). apply round_half_even_le. change (inject_Z 0) with 0. nra.
  - apply round_half_even_nonneg. nra.
Qed.

(** The printed value is within one half of a unit of the last place of [x]. *)
Lemma scaled_round_abs d x :
  Qabs (inject_Z (scaled_round d x) / inject_Z (10 ^ Z.of_nat d)) <= Qabs x + (1 # 2).
Proof.
  set (P := inject_Z (10 ^ Z.of_nat d)).
  assert (HP : 1 <= P).
  { unfold P. change 1 with (inject_Z 1). rewrite <- Zle_Qle.
    pose proof (Z.pow_pos_nonneg 10 (Z.of_nat d) ltac:(lia) ltac:(lia)). lia. }
  pose proof (round_half_even_near (x * P)) as [H1 H2].
  change (round_half_even (x * P)) with (scaled_round d x) in H1, H2.
  set (m := inject_Z (scaled_round d x)) in *.
  assert (E : m / P == m * / P) by reflexivity.
  rewrite Qabs_Qle_condition. rewrite E.
  assert (Hi : 0 < / P) by (apply Qinv_lt_0_compat; lra).
  assert (Hle : / P <= 1).
  { apply Qle_shift_inv_r; lra. }
  assert (A1 : m * / P <= (x * P + (1 # 2)) * / P) by (apply Qmult_le_compat_r; lra).
  assert (A2 : (x * P - (1 # 2)) * / P <= m * / P) by (apply Qmult_le_compat_r; lra).
  assert (E1 : (x * P + (1 # 2)) * / P == x + (1 # 2) * / P) by (field; lra).
  assert (E2 : (x * P - (1 # 2)) * / P == x - (1 # 2) * / P) by (field; lra).
  apply Qabs_case; intros; split; lra.
Qed.

(** [float()] reads back what ["{:.<d>f}"] prints: the value of [x] rounded
    half to even at [d] decimals, as long as it stays below the float
    overflow threshold. *)
Lemma float_of_format_fixed d x :
  Qabs x + 1 <= float_overflow_bound ->
  exists q, float_of_string (format_fixed d x) = Ok q /\
    q == inject_Z (scaled_round d x) / inject_Z (10 ^ Z.of_nat d).
Proof.
  intros Hx.
  set (m := scaled_round d x). set (P := (10 ^ Z.of_nat d)%Z).
  assert (HP : (0 < P)%Z) by (apply Z.pow_pos_nonneg; lia).
  set (ip := Z.to_N (Z.abs m / P)). set (fp := Z.to_N (Z.abs m mod P)).
  assert (Hfp : (Z.of_N fp < P)%Z).
  { unfold fp. rewrite Z2N.id; apply Z.mod_pos_bound; lia. }
  assert (Ha : (Z.of_N ip * P + Z.of_N fp = Z.abs m)%Z).
  { unfold ip, fp. rewrite !Z2N.id by (apply Z.div_pos || apply Z.mod_pos_bound; lia).
    rewrite Z.mul_comm. symmetry. apply Z.div_mod. lia. }
  destruct (read_fixed_body d ip fp Hfp) as (q0 & Hq0 & Eq0). fold P in Eq0.
  destruct (fixed_body_shape d ip fp) as (c & l & Hcl & Hc & Hs).
  assert (Hff : format_fixed d x = ((if Qlt_le_dec x 0 then "-" else "") ++ fixed_body d ip fp)%string)
    by (unfold format_fixed; destruct d; reflexivity).
  pose proof (scaled_round_abs d x) as Hab. fold m P in Hab.
  assert (Hq : Qabs q0 == inject_Z (Z.abs m) / inject_Z P).
  { rewrite Eq0, <- Ha. unfold Qdiv. rewrite Qabs_Qmult, Qabs_Qinv, !Qabs_pos; [reflexivity| |].
    - change 0 with (inject_Z 0). rewrite <- Zle_Qle. lia.
    - change 0 with (inject_Z 0). rewrite <- Zle_Qle. lia. }
  assert (Hm : inject_Z (Z.abs m) / inject_Z P == Qabs (inject_Z m / inject_Z P)).
  { assert (Habs : forall z, Qabs (inject_Z z) = inject_Z (Z.abs z)) by reflexivity.
    unfold Qdiv. rewrite Qabs_Qmult, Qabs_Qinv, !Habs, (Z.abs_eq P) by lia. reflexivity. }
  assert (Hno : forall v, Qabs v == Qabs q0 -> float_overflows v = false).
  { intros v Hv. unfold float_overflows. destruct (Qle_bool _ _) eqn:E; [|reflexivity].
    apply Qle_bool_iff in E. rewrite Hv, Hq, Hm in E. lra. }
  rewrite Hff. unfold float_of_string. rewrite list_ascii_of_string_app, Hcl.
  destruct (Qlt_le_dec x 0) as [Hneg|Hpos].
  - destruct (scaled_round_sign d x) as [Hs1 _]. specialize (Hs1 Hneg). fold m in Hs1.
    rewrite strip_id by (cbn [list_ascii_of_string app forallb]; exact Hs).
    cbn [list_ascii_of_string app parse_sign]. rewrite inf_nan_digit by exact Hc.
    rewrite <- Hcl, Hq0. cbv zeta.
    rewrite Hno by (rewrite Qabs_Qmult; simpl (Qabs (inject_Z (-1))); ring).
    eexists; split; [reflexivity|].
    rewrite Eq0, Ha, Z.abs_neq by exact Hs1. rewrite inject_Z_opp. change (inject_Z (-1)) with (-1). field.
    intros E. unfold Qeq in E. simpl in E. lia.
  - destruct (scaled_round_sign d x) as [_ Hs2]. specialize (Hs2 Hpos). fold m in Hs2.
    cbn [list_ascii_of_string app]. rewrite strip_id by exact Hs.
    rewrite parse_sign_digit, inf_nan_digit by exact Hc.
    rewrite <- Hcl, Hq0. cbv zeta.
    rewrite Hno by (rewrite Qabs_Qmult; simpl (Qabs (inject_Z 1)); ring).
    eexists; split; [reflexivity|].
    rewrite Eq0, Ha, Z.abs_eq by exact Hs2. change (inject_Z 1) with 1. ring.
Qed.
