(* ===== verification/LinearFit.v ===== *)
(** * The least-squares fit shared by the trend and demand handlers

    Both forecasting handlers of [src/backend/app.py] call
    [LinearRegression().fit(X, y)] with [X = np.arange(len(y))] and then
    [model.predict].  This file models that scikit-learn code for one
    feature.  It is not part of the repository, so it is modelled from the
    spec (section 4.1) and from scikit-learn's algorithm:
    - [_preprocess_data] centres [X] and [y] on their means;
    - [scipy.linalg.lstsq] solves the one-column problem.  It returns the
      minimum-norm solution, which is 0 when the centred column is zero.
    - [_set_intercept] sets [intercept_ = y_offset - X_offset * coef_].

    The class [LeastSquares] is the contract that the handlers rely on:
    the fitted line minimises the sum of squared residuals, and its
    residuals sum to zero.  [ols_least_squares] proves that the concrete
    fit [ols_fit] meets the contract. *)

From S2P Require Import Prelude.
From Stdlib Require Import QArith ZArith Lqa Lia List Setoid Morphisms.
Import ListNotations.
Open Scope Q_scope.
Open Scope forecast_scope.

(** ** The model *)

(** A fitted line: [coef_] and [intercept_]. *)
Definition line : Type := (Q * Q)%type.

(** [model.predict] on one sample: [X @ coef_ + intercept_]. *)
Definition predict (m : line) (x : Q) : Q := fst m * x + snd m.

(** Two lines are the same when their coefficients are equal rationals. *)
Definition line_eq (m m' : line) : Prop := fst m == fst m' /\ snd m == snd m'.

Infix "≃" := line_eq (at level 70) : forecast_scope.

(** The residual of one observation [(x, y)]: [y - yhat]. *)
Definition residual (m : line) (p : Q * Q) : Q := snd p - predict m (fst p).

(** The sum of squared residuals over the observations. *)
Definition ssr (m : line) (pts : list (Q * Q)) : Q :=
  Σ[p <- pts] (residual m p * residual m p).

(** [X_offset] and [y_offset] of [_preprocess_data]: the means. *)
Definition x_offset (pts : list (Q * Q)) : Q := Σ[p <- pts] fst p / qlen pts.
Definition y_offset (pts : list (Q * Q)) : Q := Σ[p <- pts] snd p / qlen pts.

(** The centred column's squared norm and its product with centred [y]. *)
Definition sxx (pts : list (Q * Q)) : Q :=
  Σ[p <- pts] ((fst p - x_offset pts) * (fst p - x_offset pts)).
Definition sxy (pts : list (Q * Q)) : Q :=
  Σ[p <- pts] ((fst p - x_offset pts) * (snd p - y_offset pts)).

(** [scipy.linalg.lstsq] on one column: the minimum-norm least-squares
    coefficient. *)
Definition lstsq_coef (sxx sxy : Q) : Q :=
  if Qeq_bool sxx 0 then 0 else sxy / sxx.

(** [LinearRegression().fit]: the coefficient of the centred problem and
    [intercept_ = y_offset - X_offset * coef_]. *)
Definition ols_fit (pts : list (Q * Q)) : line :=
  let c := lstsq_coef (sxx pts) (sxy pts) in
  (c, y_offset pts - x_offset pts * c).

(** [np.arange(k, k + n)] as rationals. *)
Definition qarange (k n : nat) : list Q := map (fun i => inject_Z (Z.of_nat i)) (seq k n).

(** The observations [fit(X, y)] sees when [X = np.arange(k, k + len(y))]:
    the [i]-th value of [y] at abscissa [k + i]. *)
Definition arange_points (k : nat) (ys : list Q) : list (Q * Q) :=
  combine (qarange k (length ys)) ys.

(** ** The contract of a least-squares fit *)

Class LeastSquares (fit : list (Q * Q) -> line) : Prop := {
  lsq_optimal : forall pts m, pts <> [] -> ssr (fit pts) pts <= ssr m pts;
  lsq_residual_sum : forall pts, pts <> [] -> Σ[p <- pts] residual (fit pts) p == 0
}.

(** ** Lemmas on the model *)

Lemma ssr_nonneg m pts : 0 <= ssr m pts.
Proof. apply qsum_squares_nonneg. Qed.

#[export] Instance line_eq_equiv : Equivalence line_eq.
Proof.
  unfold line_eq. split.
  - intros m; split; reflexivity.
  - intros m m' [H1 H2]; split; symmetry; assumption.
  - intros m1 m2 m3 [H1 H2] [H3 H4]; split; etransitivity; eassumption.
Qed.

#[export] Instance predict_proper : Proper (line_eq ==> Qeq ==> Qeq) predict.
Proof.
  intros m m' [H1 H2] x y Hxy. unfold predict. rewrite H1, H2, Hxy. reflexivity.
Qed.

Lemma ssr_zero_residuals m pts :
  ssr m pts == 0 -> forall p, In p pts -> residual m p == 0.
Proof.
  intros H p Hp. unfold ssr in H.
  pose proof (qsum_map_nonneg_zero (fun p => residual m p * residual m p) pts
                (fun p _ => Qsquare_nonneg (residual m p)) H p Hp) as Hz.
  now apply Qsquare_zero.
Qed.

Lemma ssr_zero_of_residuals m pts :
  (forall p, In p pts -> residual m p == 0) -> ssr m pts == 0.
Proof.
  intros H. unfold ssr. rewrite (qsum_map_ext _ (fun _ => 0)), qsum_map_const; [ring|].
  intros p Hp. rewrite (H p Hp). ring.
Qed.

Lemma length_qarange k n : length (qarange k n) = n.
Proof. unfold qarange. now rewrite length_map, length_seq. Qed.

Lemma qarange_succ k n : qarange k (S n) = inject_Z (Z.of_nat k) :: qarange (S k) n.
Proof. reflexivity. Qed.

Lemma arange_points_cons k y ys :
  arange_points k (y :: ys) = (inject_Z (Z.of_nat k), y) :: arange_points (S k) ys.
Proof. reflexivity. Qed.

Lemma length_arange_points k ys : length (arange_points k ys) = length ys.
Proof. revert k; induction ys; intros k; [reflexivity|]. rewrite arange_points_cons. simpl; auto. Qed.

Lemma arange_points_nil k ys : arange_points k ys = [] <-> ys = [].
Proof. destruct ys; [tauto|]. rewrite arange_points_cons. split; congruence. Qed.

Lemma map_snd_arange_points k ys : map snd (arange_points k ys) = ys.
Proof. revert k; induction ys; intros k; [reflexivity|]. rewrite arange_points_cons. simpl; f_equal; auto. Qed.

Lemma map_fst_arange_points k ys : map fst (arange_points k ys) = qarange k (length ys).
Proof.
  revert k; induction ys; intros k; [reflexivity|].
  rewrite arange_points_cons. cbn [length map]. rewrite qarange_succ, IHys. reflexivity.
Qed.

#[export] Hint Resolve ssr_nonneg : forecast.
#[export] Hint Rewrite length_arange_points map_snd_arange_points : forecast_sums.

(** ** The scikit-learn fit meets the contract *)

Section Ols.
Variable pts : list (Q * Q).
Hypothesis pts_ne : pts <> [].

Let xm := x_offset pts.
Let ym := y_offset pts.
Let c := lstsq_coef (sxx pts) (sxy pts).

Lemma centred_x_sum : Σ[p <- pts] (fst p - xm) == 0.
  Proof. exact (qsum_map_sub_mean fst pts pts_ne). Qed.

Lemma centred_y_sum : Σ[p <- pts] (snd p - ym) == 0.
  Proof. exact (qsum_map_sub_mean snd pts pts_ne). Qed.

Lemma ols_residual p : residual (ols_fit pts) p == (snd p - ym) - c * (fst p - xm).
  Proof. unfold residual, predict, ols_fit. simpl. fold xm ym c. ring. Qed.

Lemma ols_residual_sum : Σ[p <- pts] residual (ols_fit pts) p == 0.
  Proof.
    rewrite (qsum_map_ext _ (fun p => (snd p - ym) - c * (fst p - xm)))
      by (intros; apply ols_residual).
    rewrite qsum_map_minus, qsum_map_scale, centred_x_sum, centred_y_sum. ring.
  Qed.

(** When the centred column is zero, every observation sits at the mean
    abscissa. *)
Lemma sxx_zero_centred : sxx pts == 0 -> forall p, In p pts -> fst p - xm == 0.
  Proof.
    intros H p Hp. apply Qsquare_zero.
    exact (qsum_map_nonneg_zero (fun p => (fst p - xm) * (fst p - xm)) pts
             (fun p _ => Qsquare_nonneg _) H p Hp).
  Qed.

Lemma ols_residual_centred_sum :
    Σ[p <- pts] ((fst p - xm) * residual (ols_fit pts) p) == 0.
  Proof.
    destruct (Qeq_bool (sxx pts) 0) eqn:E.
    - apply Qeq_bool_eq in E.
      rewrite (qsum_map_ext _ (fun _ => 0)), qsum_map_const by
        (intros p Hp; rewrite (sxx_zero_centred E p Hp); ring).
      ring.
    - pose proof (Qeq_bool_neq _ _ E) as E'.
      rewrite (qsum_map_ext _ (fun p => (fst p - xm) * (snd p - ym) - c * ((fst p - xm) * (fst p - xm))))
        by (intros; rewrite ols_residual; ring).
      rewrite qsum_map_minus, qsum_map_scale.
      change (sxy pts - c * sxx pts == 0).
      unfold c, lstsq_coef. rewrite E. field. exact E'.
  Qed.

Lemma ols_residual_x_sum : Σ[p <- pts] (fst p * residual (ols_fit pts) p) == 0.
  Proof.
    rewrite (qsum_map_ext _ (fun p => (fst p - xm) * residual (ols_fit pts) p
                                      + xm * residual (ols_fit pts) p))
      by (intros; ring).
    rewrite qsum_map_plus, qsum_map_scale, ols_residual_centred_sum, ols_residual_sum.
    ring.
  Qed.

(** Any line's squared error is the fit's plus the squared gap between
    the two lines: the cross term vanishes by the normal equations. *)
Lemma ols_ssr_decompose m :
    ssr m pts == ssr (ols_fit pts) pts
                 + Σ[p <- pts] ((predict (ols_fit pts) (fst p) - predict m (fst p))
                                * (predict (ols_fit pts) (fst p) - predict m (fst p))).
  Proof.
    set (f := ols_fit pts).
    unfold ssr.
    rewrite (qsum_map_ext (fun p => residual m p * residual m p)
      (fun p => residual f p * residual f p
                + (2 * (fst f - fst m)) * (fst p * residual f p)
                + (2 * (snd f - snd m)) * residual f p
                + (predict f (fst p) - predict m (fst p)) * (predict f (fst p) - predict m (fst p))))
      by (intros; unfold residual, predict; ring).
    rewrite !qsum_map_plus, !qsum_map_scale.
    unfold f. rewrite ols_residual_x_sum, ols_residual_sum. ring.
  Qed.

Theorem ols_optimal m : ssr (ols_fit pts) pts <= ssr m pts.
  Proof.
    rewrite (ols_ssr_decompose m).
    pose proof (qsum_squares_nonneg
                  (fun p => predict (ols_fit pts) (fst p) - predict m (fst p)) pts).
    cbv beta in *. lra.
  Qed.
End Ols.

#[export] Instance ols_least_squares : LeastSquares ols_fit.
Proof.
  constructor.
  - intros pts m Hne. now apply ols_optimal.
  - intros pts Hne. now apply ols_residual_sum.
Qed.

(** ** What the contract gives to its clients *)

Section Contract.
Context (fit : list (Q * Q) -> line) `{!LeastSquares fit}.

(** If some line passes through every observation, so does the fit. *)
Lemma lsq_exact pts m :
    (forall p, In p pts -> residual m p == 0) ->
    forall p, In p pts -> residual (fit pts) p == 0.
  Proof.
    intros Hm p Hp.
    assert (Hne : pts <> []) by (intros ->; destruct Hp).
    apply ssr_zero_residuals with pts; [|exact Hp].
    assert (ssr m pts == 0).
    { unfold ssr. rewrite (qsum_map_ext _ (fun _ => 0)), qsum_map_const
        by (intros q Hq; rewrite (Hm q Hq); ring). ring. }
    pose proof (lsq_optimal pts m Hne). pose proof (ssr_nonneg (fit pts) pts). lra.
  Qed.

(** The fit does at least as well as the flat line at the mean. *)
Lemma lsq_ssr_le_total pts :
    pts <> [] ->
    ssr (fit pts) pts <= Σ[p <- pts] ((snd p - y_offset pts) * (snd p - y_offset pts)).
  Proof.
    intros Hne. eapply Qle_trans; [apply (lsq_optimal pts (0, y_offset pts) Hne)|].
    apply Qle_lteq. right. apply qsum_map_ext. intros p _.
    unfold residual, predict. simpl. ring.
  Qed.
End Contract.

(** ** The scikit-learn fit on special inputs *)

(** A degenerate design (all abscissas equal, e.g. one observation) gets
    the minimum-norm answer: slope 0 and the mean as intercept. *)
Lemma ols_fit_flat pts : sxx pts == 0 -> ols_fit pts ≃ (0, y_offset pts).
Proof.
  intros H. unfold ols_fit, lstsq_coef.
  rewrite (Qeq_eq_bool _ _ H). split; simpl; ring.
Qed.

(** Observations on a line with two distinct abscissas are fitted exactly:
    the fit recovers that line. *)
Lemma ols_fit_line pts a b :
  (forall p, In p pts -> snd p == a * fst p + b) ->
  ~ sxx pts == 0 ->
  ols_fit pts ≃ (a, b).
Proof.
  intros Hl Hs.
  assert (Hne : pts <> []) by (intros ->; apply Hs; reflexivity).
  pose proof (qlen_pos pts Hne) as Hn.
  assert (Hy : y_offset pts == a * x_offset pts + b).
  { unfold y_offset, x_offset.
    rewrite (qsum_map_ext _ (fun p => a * fst p + b)) by exact Hl.
    rewrite qsum_map_plus, qsum_map_scale, qsum_map_const.
    set (s1 := qsum_map _ pts). set (n := qlen pts). field. unfold n. lra. }
  assert (Hxy : sxy pts == a * sxx pts).
  { unfold sxy, sxx. rewrite <- qsum_map_scale. apply qsum_map_ext.
    intros p Hp. rewrite Hy, (Hl p Hp). ring. }
  unfold ols_fit, lstsq_coef.
  destruct (Qeq_bool (sxx pts) 0) eqn:E; [apply Qeq_bool_eq in E; contradiction|].
  split; simpl; rewrite ?Hxy; [field; exact Hs|].
  rewrite Hy. field. exact Hs.
Qed.

(** With two or more observations at [0, 1, ...] the design is not
    degenerate. *)
Lemma arange_sxx_nonzero k ys : (2 <= length ys)%nat -> ~ sxx (arange_points k ys) == 0.
Proof.
  intros Hlen Hs.
  destruct ys as [|y0 [|y1 ys]]; simpl in Hlen; try lia.
  set (pts := arange_points k (y0 :: y1 :: ys)).
  pose proof (sxx_zero_centred pts Hs (inject_Z (Z.of_nat k), y0)) as H0.
  pose proof (sxx_zero_centred pts Hs (inject_Z (Z.of_nat (S k)), y1)) as H1.
  unfold pts in H0, H1. rewrite !arange_points_cons in H0, H1.
  specialize (H0 (or_introl eq_refl)). specialize (H1 (or_intror (or_introl eq_refl))).
  cbn [fst] in H0, H1. pose proof (inject_Z_of_nat_S k). lra.
Qed.

(** A constant series is fitted by the flat line at that constant, whether
    or not the design is degenerate. *)
Lemma ols_fit_const pts v :
  pts <> [] -> (forall p, In p pts -> snd p == v) -> ols_fit pts ≃ (0, v).
Proof.
  intros Hne Hv.
  destruct (Qeq_dec (sxx pts) 0) as [Hs|Hs].
  - rewrite (ols_fit_flat pts Hs). split; [reflexivity|]. simpl.
    unfold y_offset. rewrite (qsum_map_ext _ (fun _ => v)) by exact Hv.
    rewrite qsum_map_const. pose proof (qlen_pos pts Hne).
    set (n := qlen pts). field. unfold n. lra.
  - apply ols_fit_line; [|exact Hs]. intros p Hp. rewrite (Hv p Hp). ring.
Qed.

(** ** Sums over the observations of [np.arange] *)

Lemma In_arange_points_snd k ys p : In p (arange_points k ys) -> In (snd p) ys.
Proof. intros H. rewrite <- (map_snd_arange_points k ys). now apply in_map. Qed.

Lemma qsum_arange_points_snd k ys (f : Q -> Q) :
  Σ[p <- arange_points k ys] f (snd p) = Σ[v <- ys] f v.
Proof.
  transitivity (qsum_map f (map snd (arange_points k ys))).
  - now rewrite qsum_map_map.
  - now rewrite map_snd_arange_points.
Qed.

Lemma qlen_arange_points k ys : qlen (arange_points k ys) = qlen ys.
Proof. unfold qlen. now rewrite length_arange_points. Qed.

(** The [y_offset] of the fit is [np.mean(y)]. *)
Lemma y_offset_arange_points k ys : y_offset (arange_points k ys) = qmean ys.
Proof.
  unfold y_offset, qmean, qsum.
  now rewrite (qsum_arange_points_snd k ys (fun v => v)), qlen_arange_points.
Qed.

(** Observations generated from a function of the index. *)
Lemma arange_points_map k n (f : Q -> Q) :
  arange_points k (map f (qarange k n)) = map (fun x => (x, f x)) (qarange k n).
Proof.
  revert k; induction n as [|n IH]; intros k; [reflexivity|].
  rewrite qarange_succ. cbn [map]. rewrite arange_points_cons, IH. reflexivity.
Qed.

(** [model.predict(X)] minus [y], entry by entry, is the list of residuals. *)
Lemma vsub_predict_residuals m k ys :
  vsub ys (map (predict m) (qarange k (length ys))) = map (residual m) (arange_points k ys).
Proof.
  revert k; induction ys as [|y ys IH]; intros k; [reflexivity|].
  cbn [length]. rewrite qarange_succ, arange_points_cons. cbn [map].
  unfold vsub in *. cbn [combine map]. rewrite IH. reflexivity.
Qed.

(** ** Series that lie on a line *)

Section OnLine.
Variables (a b : Q) (n : nat).
Hypothesis n_ge_2 : (2 <= n)%nat.
Let y := map (fun x => a * x + b) (qarange 0 n).

Lemma length_line_series : List.length y = n.
  Proof. unfold y. now rewrite length_map, length_qarange. Qed.

(** The fit of a series on the line [a * i + b] is that line. *)
Lemma ols_fit_arange_line : ols_fit (arange_points 0 y) ≃ (a, b).
  Proof.
    apply ols_fit_line.
    - intros p Hp. unfold y in Hp. rewrite arange_points_map in Hp.
      apply in_map_iff in Hp as [x [<- _]]. reflexivity.
    - apply arange_sxx_nonzero. rewrite length_line_series. exact n_ge_2.
  Qed.

Lemma arange_line_residual : forall p, In p (arange_points 0 y) -> residual (ols_fit (arange_points 0 y)) p == 0.
  Proof.
    intros p Hp. unfold residual. rewrite ols_fit_arange_line.
    unfold y in Hp. rewrite arange_points_map in Hp.
    apply in_map_iff in Hp as [x [<- _]]. unfold predict. simpl. ring.
  Qed.
End OnLine.

(** ** Theorems about the fit as the handlers call it *)

(** C5: the fit that both forecasting handlers compute on
    [X = np.arange(len(y))] is a least-squares line: on the same
    observations, no line has a smaller sum of squared residuals. *)
Theorem fit_arange_optimal (y : list Q) (m : line) :
  y <> [] -> ssr (ols_fit (arange_points 0 y)) (arange_points 0 y) <= ssr m (arange_points 0 y).
Proof.
  intros Hne. apply lsq_optimal. now rewrite arange_points_nil.
Qed.

(** C18: the normal equations of that fit: its residuals sum to zero and
    are orthogonal to the index. *)
Theorem fit_arange_normal_equations (y : list Q) :
  y <> [] ->
  let m := ols_fit (arange_points 0 y) in
  Σ[p <- arange_points 0 y] residual m p == 0 /\
  Σ[p <- arange_points 0 y] (fst p * residual m p) == 0.
Proof.
  intros Hne. assert (H : arange_points 0 y <> []) by now rewrite arange_points_nil.
  split; [apply ols_residual_sum | apply ols_residual_x_sum]; exact H.
Qed.

(** ** Witnesses *)

Lemma fit_arange_optimal_witness :
  [1; 3; 2] <> [] /\
  ssr (ols_fit (arange_points 0 [1; 3; 2])) (arange_points 0 [1; 3; 2])
  <= ssr (1, 1) (arange_points 0 [1; 3; 2]).
Proof. split; [discriminate|]. apply fit_arange_optimal. discriminate. Defined.

Lemma fit_arange_normal_equations_witness :
  [1; 3; 2] <> [] /\
  let m := ols_fit (arange_points 0 [1; 3; 2]) in
  Σ[p <- arange_points 0 [1; 3; 2]] residual m p == 0 /\
  Σ[p <- arange_points 0 [1; 3; 2]] (fst p * residual m p) == 0.
Proof. split; [discriminate|]. apply fit_arange_normal_equations. discriminate. Defined.
