(* ===== verification/Trend.v ===== *)
(** * POST /forecast/trend

    [forecast_trend] (src/backend/app.py, lines 13-27) fits a line to the
    values of a series against their indices.  It returns the fitted
    values, the prediction at the next index and the coefficient of
    determination [r2].  [trend_core] models the handler from the decoded
    values on ([y] in the code): the empty guard, the fit, [yhat],
    [next_val], [ss_res], [ss_tot] and the guarded division that gives
    [r2].  [forecast_trend] is the whole view on the request body: the
    parsing, the [get] with its default, the truthiness guard and the
    [float()] of each point, whose first exception ends the request.
    The theorems on [trend_core] are the spec's testable properties; they
    are proved from the [LeastSquares] contract and from the scikit-learn
    fit's behaviour on lines and constants.  The theorems on
    [forecast_trend] relate the view to [trend_core] and describe its
    errors. *)

From S2P Require Import Prelude Json PyConv LinearFit.
From Stdlib Require Import QArith ZArith Lqa Lia List String Setoid Morphisms.
Import ListNotations.
Open Scope Q_scope.
Open Scope forecast_scope.

(** The response body [{"predicted": ..., "next": ..., "r2": ...}]. *)
Record trend_response : Type := {
  tr_predicted : list Q;
  tr_next : pynum;
  tr_r2 : pynum
}.

(** Lines 17-27, given [y = [float(s.get("value", 0)) for s in series]].
    The guard [if not series] holds exactly when [y] is empty. *)
Definition trend_core (y : list Q) : trend_response :=
  match y with
  | [] => {| tr_predicted := []; tr_next := PyInt 0; tr_r2 := PyInt 0 |}
  | _ :: _ =>
      let X := qarange 0 (List.length y) in
      let model := ols_fit (arange_points 0 y) in
      let yhat := map (predict model) X in
      let next_val := predict model (inject_Z (Z.of_nat (List.length y))) in
      let ss_res := Σ[d <- vsub y yhat] (d * d) in
      let ss_tot := Σ[v <- y] ((v - qmean y) * (v - qmean y)) in
      let r2 := if Qlt_le_dec 0 ss_tot then PyFloat (1 - ss_res / ss_tot) else PyInt 0 in
      {| tr_predicted := yhat; tr_next := PyFloat next_val; tr_r2 := r2 |}
  end.

(** The non-empty branch of the handler. *)
Lemma trend_core_nonempty y :
  y <> [] ->
  trend_core y =
  let model := ols_fit (arange_points 0 y) in
  let yhat := map (predict model) (qarange 0 (List.length y)) in
  let ss_res := Σ[d <- vsub y yhat] (d * d) in
  let ss_tot := Σ[v <- y] ((v - qmean y) * (v - qmean y)) in
  {| tr_predicted := yhat;
     tr_next := PyFloat (predict model (inject_Z (Z.of_nat (List.length y))));
     tr_r2 := if Qlt_le_dec 0 ss_tot then PyFloat (1 - ss_res / ss_tot) else PyInt 0 |}.
Proof. destruct y; [congruence|reflexivity]. Qed.

(** ** The handler on the request body *)

Section Handler.
Local Open Scope py_scope.
Local Open Scope string_scope.

(** [jsonify({"predicted": ..., "next": ..., "r2": ...})]. *)
Definition trend_body (r : trend_response) : json :=
  JObj [("predicted", json_floats (tr_predicted r));
        ("next", encode_pynum (tr_next r));
        ("r2", encode_pynum (tr_r2 r))].

(** [float(s.get("value", 0))] for one point of the series. *)
Definition series_value (s : json) : pyres Q :=
  let* v := py_get s "value" (JInt 0) in py_float v.

(** [forecast_trend] (lines 14-27) on the parsed request body. *)
Definition forecast_trend (body : option json) : pyres json :=
  let* raw := get_json_force body in
  let data := or_empty raw in
  let* series := py_get data "series" (JArr []) in
  if negb (truthy series) then
    Ok (JObj [("predicted", JArr []); ("next", JInt 0); ("r2", JInt 0)])
  else
    let* items := py_iter series in
    let* y := pmap series_value items in
    Ok (trend_body (trend_core y)).
End Handler.

(** ** The sums of the handler in terms of the fit *)

Section Sums.
Variable y : list Q.
Let pts := arange_points 0 y.
Let model := ols_fit pts.

(** [ss_res] is the fit's sum of squared residuals. *)
Lemma trend_ss_res :
    Σ[d <- vsub y (map (predict model) (qarange 0 (List.length y)))] (d * d) = ssr model pts.
  Proof. unfold pts. rewrite vsub_predict_residuals, qsum_map_map. reflexivity. Qed.

(** [ss_tot] is the squared error of the flat line at the mean. *)
Lemma trend_ss_tot :
    Σ[v <- y] ((v - qmean y) * (v - qmean y))
    = Σ[p <- pts] ((snd p - y_offset pts) * (snd p - y_offset pts)).
  Proof.
    unfold pts. rewrite y_offset_arange_points.
    now rewrite (qsum_arange_points_snd 0 y (fun v => (v - qmean y) * (v - qmean y))).
  Qed.
End Sums.

(** ** Theorems *)

(** C2: r2 is either the integer 0 (empty or constant series) or a float in [0, 1]. *)
Theorem trend_r2_range y :
  match tr_r2 (trend_core y) with
  | PyInt z => z = 0%Z
  | PyFloat q => 0 <= q <= 1
  end.
Proof.
  destruct y as [|y0 ys]; [reflexivity|].
  set (y := y0 :: ys). cbn zeta. unfold trend_core; fold y.
  destruct (Qlt_le_dec 0 _) as [Hpos|]; [|reflexivity].
  rewrite trend_ss_res, trend_ss_tot in *.
  assert (Hne : arange_points 0 y <> []) by (rewrite arange_points_nil; discriminate).
  pose proof (lsq_ssr_le_total ols_fit _ Hne) as Hle.
  pose proof (ssr_nonneg (ols_fit (arange_points 0 y)) (arange_points 0 y)) as H0.
  set (r := ssr _ _) in *. set (t := qsum_map _ _) in *.
  split.
  - assert (r / t <= 1) by (apply Qle_shift_div_r; lra). lra.
  - assert (0 <= r / t) by (apply Qle_shift_div_l; lra). lra.
Qed.

(** Lemma: the mean of a constant series is that constant. *)
Lemma qmean_repeat v n : qmean (repeat v (S n)) == v.
Proof.
  unfold qmean, qsum.
  rewrite (qsum_map_ext _ (fun _ => v)) by (intros x Hx; apply repeat_spec in Hx; now rewrite Hx).
  rewrite qsum_map_const. pose proof (qlen_pos (repeat v (S n)) ltac:(discriminate)).
  set (l := qlen _). field. unfold l. lra.
Qed.

(** C12: for a non-empty constant series (all values [v]), every fitted value
    is [v], [next] is [v] and [r2] is the integer 0.  Length 1 is the case
    [n = 0]. *)
Theorem trend_constant v n :
  let r := trend_core (repeat v (S n)) in
  Forall (fun p => p == v) (tr_predicted r) /\
  pynum_val (tr_next r) == v /\
  tr_r2 r = PyInt 0.
Proof.
  set (y := repeat v (S n)).
  assert (Hfit : ols_fit (arange_points 0 y) ≃ (0, v)).
  { apply ols_fit_const; [rewrite arange_points_nil; discriminate|].
    intros p Hp. apply In_arange_points_snd, repeat_spec in Hp. now rewrite Hp. }
  assert (Hp : forall x, predict (ols_fit (arange_points 0 y)) x == v).
  { intros x. rewrite Hfit. unfold predict. simpl. ring. }
  cbn zeta. unfold y at 1. simpl repeat. unfold trend_core. fold y.
  cbn [tr_predicted tr_next tr_r2 pynum_val]. repeat split.
  - apply Forall_forall. intros p Hin. apply in_map_iff in Hin as [x [<- _]]. apply Hp.
  - apply Hp.
  - destruct (Qlt_le_dec 0 _) as [Hpos|]; [exfalso|reflexivity].
    rewrite (qsum_map_ext _ (fun _ => 0)), qsum_map_const in Hpos; [lra|].
    assert (Hm : qmean y == v) by apply qmean_repeat.
    intros x Hx. apply repeat_spec in Hx. rewrite Hx, Hm. ring.
Qed.

(** C13: a series that lies exactly on a line [a * i + b] with [a <> 0] and
    at least two points is reproduced: the fitted values are the series,
    [next] is [a * n + b] and [r2] is the float 1. *)
Theorem trend_linear a b n :
  (2 <= n)%nat -> ~ a == 0 ->
  let y := map (fun x => a * x + b) (qarange 0 n) in
  let r := trend_core y in
  Forall2 Qeq (tr_predicted r) y /\
  pynum_val (tr_next r) == a * inject_Z (Z.of_nat n) + b /\
  exists q, tr_r2 r = PyFloat q /\ q == 1.
Proof.
  intros Hn Ha y. cbn zeta.
  pose proof (length_line_series a b n) as Hlen. fold y in Hlen.
  assert (Hp : forall x, predict (ols_fit (arange_points 0 y)) x == a * x + b)
    by (intros x; unfold y; rewrite (ols_fit_arange_line a b n Hn); reflexivity).
  assert (Hne : y <> []) by (intros E; rewrite E in Hlen; simpl in Hlen; lia).
  rewrite (trend_core_nonempty y Hne). cbn zeta.
  cbn [tr_predicted tr_next tr_r2 pynum_val]. rewrite Hlen. split; [|split].
  - unfold y at 2. apply Forall2_map_Qeq. intros; apply Hp.
  - apply Hp.
  - rewrite <- Hlen, trend_ss_res, trend_ss_tot.
    assert (Hz : ssr (ols_fit (arange_points 0 y)) (arange_points 0 y) == 0)
      by (apply ssr_zero_of_residuals, arange_line_residual, Hn).
    set (ym := y_offset (arange_points 0 y)).
    set (x0 := inject_Z (Z.of_nat 0)). set (x1 := inject_Z (Z.of_nat 1)).
    assert (Hin : In (x0, a * x0 + b) (arange_points 0 y) /\
                  In (x1, a * x1 + b) (arange_points 0 y)).
    { unfold y. rewrite arange_points_map. destruct n as [|[|n']]; [lia|lia|].
      rewrite !qarange_succ. split; [left|right; left]; reflexivity. }
    assert (Hpos : 0 < Σ[p <- arange_points 0 y] ((snd p - ym) * (snd p - ym))).
    { destruct (Qeq_dec (a * x0 + b - ym) 0) as [E|E].
      - apply (qsum_squares_pos (fun p => snd p - ym) _ _ (proj2 Hin)).
        unfold x0, x1 in *.
        change (inject_Z (Z.of_nat 0)) with 0 in *.
        change (inject_Z (Z.of_nat 1)) with 1 in *. cbn [snd] in *.
        intros E'. apply Ha. lra.
      - exact (qsum_squares_pos (fun p => snd p - ym) _ _ (proj1 Hin) E). }
    destruct (Qlt_le_dec 0 _) as [_|]; [|lra].
    eexists; split; [reflexivity|]. rewrite Hz. unfold Qdiv. ring.
Qed.

(** ** Witnesses *)

(** The spec's scenario [10, 20, 30] is the line [10 * i + 10]. *)
Lemma trend_linear_witness :
  (2 <= 3)%nat /\ ~ 10 == 0 /\
  let y := map (fun x => 10 * x + 10) (qarange 0 3) in
  let r := trend_core y in
  Forall2 Qeq (tr_predicted r) y /\
  pynum_val (tr_next r) == 10 * inject_Z (Z.of_nat 3) + 10 /\
  exists q, tr_r2 r = PyFloat q /\ q == 1.
Proof.
  split; [lia|]. split; [apply Qeq_bool_neq; reflexivity|].
  apply trend_linear; [lia | apply Qeq_bool_neq; reflexivity].
Defined.

(** ** The handler on well-formed and malformed bodies *)

(** The body [{"series": [{"value": y0}, {"value": y1}, ...]}]. *)
Definition series_body (ys : list Q) : json :=
  JObj [("series"%string, JArr (map (fun q => JObj [("value"%string, JFloat q)]) ys))].

(** C8: on a well-formed body the handler succeeds and returns the JSON
    encoding of [trend_core] on the values, the empty series included. *)
Theorem forecast_trend_values (ys : list Q) :
  forecast_trend (Some (series_body ys)) = Ok (trend_body (trend_core ys)).
Proof.
  destruct ys as [|y ys]; [reflexivity|].
  unfold forecast_trend, series_body.
  cbn [get_json_force pbind or_empty truthy negb py_get lookup_field String.eqb].
  simpl pbind. rewrite pmap_map, (pmap_map_ok _ (fun q => q)) by reflexivity.
  simpl. now rewrite map_id.
Qed.

(** C31: the points are converted in order and the first one whose
    [float(s.get("value", 0))] raises decides the answer: when the points
    before it convert, the request raises that exception (status 500)
    whatever follows.  A [null] value, a string such as ["n/a"] or a point
    that is not a dict all raise; only a missing ["value"] key falls back
    to 0, where the spec says malformed fields are coerced to 0. *)
Theorem forecast_trend_first_error (pre : list json) (bad : json) (post : list json)
    (ys : list Q) (e : py_exc) :
  pmap series_value pre = Ok ys -> series_value bad = Raise e ->
  forecast_trend (Some (JObj [("series"%string, JArr (pre ++ bad :: post))])) = Raise e.
Proof.
  intros Hpre Hbad. unfold forecast_trend. cbn [get_json_force pbind].
  rewrite or_empty_obj, py_get_head. cbn [pbind].
  replace (truthy (JArr (pre ++ bad :: post))) with true by (destruct pre; reflexivity).
  cbn [negb py_iter pbind]. now rewrite (pmap_first_raise _ _ _ _ _ _ Hpre Hbad).
Qed.

Lemma forecast_trend_first_error_witness :
  pmap series_value [JObj [("value"%string, JInt 4)]] = Ok [4] /\
  series_value (JObj [("value"%string, JNull)]) = Raise TypeError /\
  forecast_trend (Some (JObj [("series"%string,
    JArr ([JObj [("value"%string, JInt 4)]] ++ JObj [("value"%string, JNull)] :: []))]))
  = Raise TypeError.
Proof.
  assert (Hpre : pmap series_value [JObj [("value"%string, JInt 4)]] = Ok [4]) by reflexivity.
  assert (Hbad : series_value (JObj [("value"%string, JNull)]) = Raise TypeError) by reflexivity.
  split; [exact Hpre|]. split; [exact Hbad|].
  exact (forecast_trend_first_error _ _ [] _ _ Hpre Hbad).
Defined.
