(* ===== verification/Demand.v ===== *)
(** * POST /forecast/demand

    [forecast_demand] (src/backend/app.py, lines 29-55) does three things:
    - it fits a line to the unit counts against their indices;
    - it sums the line's predictions over the next [horizon] indices;
    - it surrounds the sum with a band of [1.96 * std * max(1, horizon)],
      where [std] is the population standard deviation of the in-sample
      residuals.
    [demand_core] models the handler from the decoded values on ([y] and
    the integer [horizon] in the code); [forecast_demand] is the whole
    view on the request body, with [int(horizon)] converted before the
    empty-items guard, as line 33 comes before line 34.

    The only operation that is not rational is [np.sqrt], inside
    [np.std].  It is abstracted as the class [NpSqrt].  The theorems that
    need facts about it assume the laws [NpSqrtLaws]: non-negative on
    non-negative input, [sqrt 0 = 0], compatible with equality of
    rationals.  [qsqrt_floor6] is a rational instance (the square root
    rounded down to 6 decimals), used to run the model in the witnesses. *)

From S2P Require Import Prelude Format Json PyConv LinearFit.
From Stdlib Require Import QArith ZArith NArith Lqa Lia List String Setoid Morphisms.
Import ListNotations.
Open Scope Q_scope.
Open Scope forecast_scope.

(** ** [np.sqrt] *)

Class NpSqrt : Type := np_sqrt : Q -> Q.

Class NpSqrtLaws `{NpSqrt} : Prop := {
  np_sqrt_nonneg : forall x, 0 <= x -> 0 <= np_sqrt x;
  np_sqrt_zero : np_sqrt 0 == 0;
  np_sqrt_proper :: Proper (Qeq ==> Qeq) np_sqrt
}.

(** [np.std(a)]: the square root of the mean squared deviation from the
    mean (population standard deviation, [ddof=0]). *)
Definition np_std `{NpSqrt} (a : list Q) : Q :=
  np_sqrt (qmean (map (fun r => (r - qmean a) * (r - qmean a)) a)).

(** ** The handler *)

(** The response body.  The empty-input response has no ["future"] key. *)
Record demand_response : Type := {
  dm_point : Z;
  dm_lower : Z;
  dm_upper : Z;
  dm_confidence : string;
  dm_future : option (list Q)
}.

Section Handler.
Context `{NpSqrt}.

(** [model = LinearRegression().fit(X, y)]. *)
Definition demand_model (y : list Q) : line := ols_fit (arange_points 0 y).

(** [future = model.predict(np.arange(len(y), len(y) + horizon))]; the
    range is empty when [horizon <= 0]. *)
Definition demand_future (y : list Q) (horizon : Z) : list Q :=
    map (predict (demand_model y)) (qarange (List.length y) (Z.to_nat horizon)).

(** [std = float(np.std(y - model.predict(X)))]. *)
Definition demand_std (y : list Q) : Q :=
    np_std (vsub y (map (predict (demand_model y)) (qarange 0 (List.length y)))).

(** [band = 1.96 * std * max(1, horizon)]. *)
Definition demand_band (y : list Q) (horizon : Z) : Q :=
    (49 # 25) * demand_std y * inject_Z (Z.max 1 horizon).

(** The number printed in the confidence string:
    [0 if point == 0 else min(100, (band / max(point, 1e-6)) * 100)]. *)
Definition confidence_value (point band : Q) : Q :=
    if Qeq_bool point 0 then 0
    else py_min 100 (band / py_max point (1 # 1000000) * 100).

(** Lines 34-55. *)
Definition demand_core (y : list Q) (horizon : Z) : demand_response :=
    match y with
    | [] => {| dm_point := 0; dm_lower := 0; dm_upper := 0;
               dm_confidence := "±0%"; dm_future := None |}
    | _ :: _ =>
        let future := demand_future y horizon in
        let point := qsum future in
        let band := demand_band y horizon in
        let lower := py_max 0 (point - band) in
        let upper := py_max lower (point + band) in
        {| dm_point := round_half_even point;
           dm_lower := round_half_even lower;
           dm_upper := round_half_even upper;
           dm_confidence := ("±" ++ format_fixed 0 (confidence_value point band) ++ "%")%string;
           dm_future := Some future |}
    end.
End Handler.

(** ** The handler on the request body *)

Section JsonHandler.
Context `{NpSqrt}.
Local Open Scope py_scope.
Local Open Scope string_scope.

(** [jsonify] of the response; the ["future"] key is there only when the
    series was not empty. *)
Definition demand_body (r : demand_response) : json :=
  JObj ([("point", JInt (dm_point r)); ("lower", JInt (dm_lower r));
         ("upper", JInt (dm_upper r)); ("confidence", JStr (dm_confidence r))]
        ++ match dm_future r with
           | Some f => [("future", json_floats f)]
           | None => []
           end).

(** [float(i.get("units", 0))] for one item. *)
Definition units_value (i : json) : pyres Q :=
  let* v := py_get i "units" (JInt 0) in py_float v.

(** [forecast_demand] (lines 30-55) on the parsed request body.  The
    horizon is converted before the empty-items guard. *)
Definition forecast_demand (body : option json) : pyres json :=
  let* raw := get_json_force body in
  let data := or_empty raw in
  let* items := py_get data "items" (JArr []) in
  let* hv := py_get data "horizon" (JInt 3) in
  let* horizon := py_int hv in
  if negb (truthy items) then
    Ok (JObj [("point", JInt 0); ("lower", JInt 0); ("upper", JInt 0); ("confidence", JStr "±0%")])
  else
    let* its := py_iter items in
    let* y := pmap units_value its in
    Ok (demand_body (demand_core y horizon)).
End JsonHandler.

(** ** A rational [np.sqrt] *)

(** The square root rounded down to 6 decimals, computed on the reduced
    fraction so that equal rationals get equal roots. *)
Definition qsqrt_floor6 (x : Q) : Q :=
  let r := Qred x in
  Z.sqrt (Qnum r * Zpos (Qden r) * 10 ^ 12) # (Qden r * 1000000).

#[export] Instance np_sqrt_floor6 : NpSqrt := qsqrt_floor6.

#[export] Instance np_sqrt_floor6_laws : NpSqrtLaws.
Proof.
  split.
  - intros x _. unfold np_sqrt, np_sqrt_floor6, qsqrt_floor6. cbv zeta.
    set (z := Z.sqrt _). assert (0 <= z)%Z by apply Z.sqrt_nonneg.
    unfold Qle. simpl. lia.
  - reflexivity.
  - intros x y Hxy. unfold np_sqrt, np_sqrt_floor6, qsqrt_floor6.
    now rewrite (Qred_complete x y Hxy).
Qed.

(** ** Lemmas *)

Section Lemmas.
Context `{NpSqrtLaws}.

Lemma np_std_nonneg a : 0 <= np_std a.
  Proof.
    apply np_sqrt_nonneg, qmean_nonneg. intros x Hx.
    apply in_map_iff in Hx as [r [<- _]]. apply Qsquare_nonneg.
  Qed.

(** The standard deviation of a list of zeros is zero. *)
Lemma np_std_zero a : (forall r, In r a -> r == 0) -> np_std a == 0.
  Proof.
    intros Hz. unfold np_std. rewrite <- np_sqrt_zero. apply np_sqrt_proper.
    apply qmean_zero. intros x Hx. apply in_map_iff in Hx as [r [<- Hr]].
    assert (Hm : qmean a == 0) by (apply qmean_zero; exact Hz).
    rewrite (Hz r Hr), Hm. ring.
  Qed.

Lemma demand_band_nonneg y horizon : 0 <= demand_band y horizon.
  Proof.
    unfold demand_band. pose proof (np_std_nonneg (vsub y (map (predict (demand_model y))
                                                       (qarange 0 (List.length y))))).
    assert (0 <= inject_Z (Z.max 1 horizon))
      by (change 0 with (inject_Z 0); rewrite <- Zle_Qle; lia).
    fold (demand_std y) in *. 
    apply Qmult_le_0_compat; [apply Qmult_le_0_compat|]; auto. discriminate.
  Qed.

(** The printed confidence value lies in [0, 100]. *)
Lemma confidence_value_range point band :
    0 <= band -> 0 <= confidence_value point band <= 100.
  Proof.
    intros Hb. unfold confidence_value. destruct (Qeq_bool point 0); [lra|].
    assert (0 < py_max point (1 # 1000000)) by (pose proof (py_max_ge_r point (1 # 1000000)); lra).
    assert (0 <= band / py_max point (1 # 1000000)) by (apply Qdiv_nonneg; lra).
    py_cases; lra.
  Qed.
End Lemmas.

(** The non-empty branch of the handler. *)
Lemma demand_core_nonempty `{NpSqrt} y horizon :
  y <> [] ->
  demand_core y horizon =
  let future := demand_future y horizon in
  let point := qsum future in
  let band := demand_band y horizon in
  let lower := py_max 0 (point - band) in
  let upper := py_max lower (point + band) in
  {| dm_point := round_half_even point;
     dm_lower := round_half_even lower;
     dm_upper := round_half_even upper;
     dm_confidence := ("±" ++ format_fixed 0 (confidence_value point band) ++ "%")%string;
     dm_future := Some future |}.
Proof. destruct y; [congruence|reflexivity]. Qed.

Section OnLine.
Context `{NpSqrtLaws}.
Variables (a b : Q) (n : nat).
Hypothesis n_ge_2 : (2 <= n)%nat.

Let y := map (fun x => a * x + b) (qarange 0 n).

(** Units exactly on a line: the residuals vanish, so [np.std] is 0. *)
Lemma demand_line_std : demand_std y == 0.
  Proof.
    unfold demand_std. apply np_std_zero. unfold demand_model.
    rewrite vsub_predict_residuals. intros r Hr. apply in_map_iff in Hr as [p [<- Hp]].
    now apply arange_line_residual.
  Qed.

Lemma demand_line_band horizon : demand_band y horizon == 0.
  Proof. unfold demand_band. rewrite demand_line_std. ring. Qed.

(** The future values are the line's values at [n, ..., n + h - 1]. *)
Lemma demand_line_future horizon :
    Forall2 Qeq (demand_future y horizon) (map (fun x => a * x + b) (qarange n (Z.to_nat horizon))).
  Proof.
    pose proof (length_line_series a b n) as Hlen. fold y in Hlen.
    assert (Hm : demand_model y ≃ (a, b)) by apply (ols_fit_arange_line a b n n_ge_2).
    unfold demand_future. rewrite Hlen.
    apply Forall2_map_Qeq. intros x _. rewrite Hm. reflexivity.
  Qed.

Lemma demand_line_nonempty : y <> [].
  Proof.
    pose proof (length_line_series a b n) as Hlen. fold y in Hlen.
    intros E. rewrite E in Hlen. simpl in Hlen. lia.
  Qed.
End OnLine.

(** ** Theorems *)

(** C1: for every input, including negative unit counts and any horizon,
    the rounded band satisfies [0 <= lower <= upper].  This holds for any
    square root, since it only uses the two [max] calls and the
    monotonicity of [round]. *)
Theorem demand_bounds `{NpSqrt} y horizon :
  (0 <= dm_lower (demand_core y horizon) <= dm_upper (demand_core y horizon))%Z.
Proof.
  destruct y as [|y0 ys]; [simpl; lia|].
  rewrite demand_core_nonempty by discriminate. cbn zeta. cbn [dm_lower dm_upper].
  split; [apply round_half_even_nonneg | apply round_half_even_le]; apply py_max_ge_l.
Qed.

(** C14: the confidence string is ["±" ++ str(k) ++ "%"] for a whole number
    [k] between 0 and 100. *)
Theorem demand_confidence_range `{NpSqrtLaws} y horizon :
  exists k : N, (k <= 100)%N /\
    dm_confidence (demand_core y horizon) = ("±" ++ dec_string k ++ "%")%string.
Proof.
  destruct y as [|y0 ys]; [exists 0%N; split; [lia|reflexivity]|].
  rewrite demand_core_nonempty by discriminate. cbn zeta. cbn [dm_confidence].
  set (v := confidence_value _ _).
  assert (Hv : 0 <= v <= 100) by apply confidence_value_range, demand_band_nonneg.
  exists (Z.to_N (round_half_even v)). split.
  - pose proof (round_half_even_le v 100 (proj2 Hv)) as Hr.
    change (round_half_even 100) with 100%Z in Hr. pose proof (round_half_even_nonneg v (proj1 Hv)). lia.
  - now rewrite format_fixed_0 by apply Hv.
Qed.

(** C15: with [horizon <= 0] nothing is forecast: [future] is empty, the
    point and lower bound are 0, the confidence is ["±0%"].  [max(1,
    horizon)] keeps the band at [1.96 * std], and the upper bound is that
    band rounded. *)
Theorem demand_nonpositive_horizon `{NpSqrtLaws} y horizon :
  y <> [] -> (horizon <= 0)%Z ->
  let r := demand_core y horizon in
  dm_future r = Some [] /\ dm_point r = 0%Z /\ dm_lower r = 0%Z /\
  dm_upper r = round_half_even ((49 # 25) * demand_std y) /\
  dm_confidence r = "±0%"%string.
Proof.
  intros Hne Hh. rewrite demand_core_nonempty by exact Hne. cbv zeta.
  assert (Hf : demand_future y horizon = []).
  { unfold demand_future. now replace (Z.to_nat horizon) with O by lia. }
  assert (Hb : demand_band y horizon == (49 # 25) * demand_std y).
  { unfold demand_band. rewrite Z.max_l by lia. ring. }
  pose proof (demand_band_nonneg y horizon) as Hb0.
  rewrite Hf. cbn [dm_future dm_point dm_lower dm_upper dm_confidence qsum qsum_map fold_right].
  repeat split.
  - transitivity (round_half_even 0); [|reflexivity].
    apply round_half_even_proper. py_cases; lra.
  - apply round_half_even_proper. py_cases; lra.
Qed.

(** C21: for units that lie exactly on a line [a * i + b] (at least two of
    them), the future values are the line's values at [n, ..., n+h-1].
    The residuals are zero, so the band is empty: [lower = upper], and the
    confidence is ["±0%"]. *)
Theorem demand_linear `{NpSqrtLaws} a b n horizon :
  (2 <= n)%nat ->
  let y := map (fun x => a * x + b) (qarange 0 n) in
  let r := demand_core y horizon in
  (exists F, dm_future r = Some F /\
             Forall2 Qeq F (map (fun x => a * x + b) (qarange n (Z.to_nat horizon)))) /\
  dm_lower r = dm_upper r /\
  dm_confidence r = "±0%"%string.
Proof.
  intros Hn y. cbn zeta.
  pose proof (demand_line_band a b n Hn horizon) as Hb. fold y in Hb.
  rewrite demand_core_nonempty by exact (demand_line_nonempty a b n Hn). cbn zeta.
  cbn [dm_future dm_lower dm_upper dm_confidence]. split; [|split].
  - eexists; split; [reflexivity|]. exact (demand_line_future a b n Hn horizon).
  - apply round_half_even_proper. rewrite Hb. py_cases; lra.
  - assert (Hc : confidence_value (qsum (demand_future y horizon)) (demand_band y horizon) == 0).
    { unfold confidence_value. destruct (Qeq_bool _ 0); [reflexivity|].
      rewrite Hb. unfold Qdiv. py_cases; lra. }
    now rewrite Hc.
Qed.

(** C30: the point forecast is not clamped at zero, unlike the band.  Units
    on a falling line (slope [a <= 0]) whose next value [a * n + b] is at
    most -1 give, over any horizon of at least one step, a negative point
    while [lower = upper = 0]: the point lies below its own band. *)
Theorem demand_falling_line `{NpSqrtLaws} a b n horizon :
  (2 <= n)%nat -> (1 <= horizon)%Z -> a <= 0 -> a * inject_Z (Z.of_nat n) + b <= -1 ->
  let r := demand_core (map (fun x => a * x + b) (qarange 0 n)) horizon in
  (dm_point r < 0)%Z /\ dm_lower r = 0%Z /\ dm_upper r = 0%Z.
Proof.
  intros Hn Hh Ha Hnext r.
  set (y := map (fun x => a * x + b) (qarange 0 n)) in r.
  pose proof (demand_line_band a b n Hn horizon) as Hb. fold y in Hb.
  assert (Hp : qsum (demand_future y horizon) <= -1).
  { pose proof (qsum_Forall2 _ _ (demand_line_future a b n Hn horizon)) as Hq.
    fold y in Hq. unfold qsum in Hq at 2. rewrite qsum_map_map in Hq.
    assert (Hle : forall x, In x (qarange n (Z.to_nat horizon)) -> a * x + b <= -1).
    { intros x Hx. apply in_map_iff in Hx as [i [<- Hi]]. apply in_seq in Hi.
      assert (inject_Z (Z.of_nat n) <= inject_Z (Z.of_nat i)) by (rewrite <- Zle_Qle; lia).
      nra. }
    pose proof (qsum_map_le_const _ _ _ Hle) as Hs.
    assert (1 <= qlen (qarange n (Z.to_nat horizon))).
    { unfold qlen. rewrite length_qarange. change 1 with (inject_Z 1). rewrite <- Zle_Qle. lia. }
    nra. }
  unfold r. rewrite demand_core_nonempty by exact (demand_line_nonempty a b n Hn). cbn zeta.
  cbn [dm_point dm_lower dm_upper].
  set (p := qsum (demand_future y horizon)) in *.
  assert (Hl : py_max 0 (p - demand_band y horizon) == 0) by (rewrite Hb; py_cases; lra).
  assert (Hu : py_max 0 (p + demand_band y horizon) == 0) by (rewrite Hb; py_cases; lra).
  rewrite Hl, Hu. split; [|split; reflexivity].
  pose proof (round_half_even_near p) as [_ Hr].
  assert (Hq : inject_Z (round_half_even p) < inject_Z 0) by (change (inject_Z 0) with 0; lra).
  now rewrite <- Zlt_Qlt in Hq.
Qed.

(** ** Witnesses *)

Lemma demand_confidence_range_witness :
  exists k : N, (k <= 100)%N /\
    dm_confidence (@demand_core np_sqrt_floor6 [10; 12; 15; 11; 18] 3)
    = ("±" ++ dec_string k ++ "%")%string.
Proof. apply (@demand_confidence_range np_sqrt_floor6 np_sqrt_floor6_laws). Defined.

Lemma demand_nonpositive_horizon_witness :
  [1; 2; 4] <> [] /\ (0 <= 0)%Z /\
  let r := @demand_core np_sqrt_floor6 [1; 2; 4] 0 in
  dm_future r = Some [] /\ dm_point r = 0%Z /\ dm_lower r = 0%Z /\
  dm_upper r = round_half_even ((49 # 25) * @demand_std np_sqrt_floor6 [1; 2; 4]) /\
  dm_confidence r = "±0%"%string.
Proof.
  split; [discriminate|]. split; [lia|].
  apply (@demand_nonpositive_horizon np_sqrt_floor6 np_sqrt_floor6_laws); [discriminate|lia].
Defined.

Lemma demand_falling_line_witness :
  (2 <= 3)%nat /\ (1 <= 5)%Z /\ -10 <= 0 /\ -10 * inject_Z (Z.of_nat 3) + 25 <= -1 /\
  let r := @demand_core np_sqrt_floor6 (map (fun x => -10 * x + 25) (qarange 0 3)) 5 in
  (dm_point r < 0)%Z /\ dm_lower r = 0%Z /\ dm_upper r = 0%Z.
Proof.
  assert (H1 : -10 <= 0) by (vm_compute; discriminate).
  assert (H2 : -10 * inject_Z (Z.of_nat 3) + 25 <= -1) by (vm_compute; discriminate).
  split; [lia|]. split; [lia|]. split; [exact H1|]. split; [exact H2|].
  exact (@demand_falling_line np_sqrt_floor6 np_sqrt_floor6_laws _ _ 3 5 ltac:(lia) ltac:(lia) H1 H2).
Defined.

Lemma demand_linear_witness :
  (2 <= 3)%nat /\
  let y := map (fun x => 10 * x + 10) (qarange 0 3) in
  let r := @demand_core np_sqrt_floor6 y 2 in
  (exists F, dm_future r = Some F /\
             Forall2 Qeq F (map (fun x => 10 * x + 10) (qarange 3 (Z.to_nat 2)))) /\
  dm_lower r = dm_upper r /\
  dm_confidence r = "±0%"%string.
Proof.
  split; [lia|]. apply (@demand_linear np_sqrt_floor6 np_sqrt_floor6_laws). lia.
Defined.

(** ** The handler on well-formed and malformed bodies *)

(** The body [{"items": [{"units": y0}, ...], "horizon": hv}]. *)
Definition items_body (ys : list Q) (hv : json) : json :=
  JObj [("items"%string, JArr (map (fun q => JObj [("units"%string, JFloat q)]) ys));
        ("horizon"%string, hv)].

(** C9: on a well-formed body with an integer horizon the handler succeeds
    and returns the JSON encoding of [demand_core], the empty series
    included. *)
Theorem forecast_demand_values `{NpSqrt} (ys : list Q) (h : Z) :
  forecast_demand (Some (items_body ys (JInt h))) = Ok (demand_body (demand_core ys h)).
Proof.
  destruct ys as [|y ys]; [reflexivity|].
  unfold forecast_demand, items_body.
  cbn [get_json_force pbind or_empty truthy negb py_get lookup_field String.eqb].
  simpl pbind. rewrite pmap_map, (pmap_map_ok _ (fun q => q)) by reflexivity.
  simpl. now rewrite map_id.
Qed.

(** C28: the horizon is converted before the empty-items guard, so an empty
    series with a horizon that [int()] rejects ([null], ["abc"], a list)
    fails with status 500.  The spec's scenario promises the zero response
    for [items = []] and any horizon. *)
Theorem forecast_demand_empty_bad_horizon `{NpSqrt} (hv : json) (e : py_exc) :
  py_int hv = Raise e -> forecast_demand (Some (items_body [] hv)) = Raise e.
Proof. intros Hh. unfold forecast_demand, items_body. simpl. now rewrite Hh. Qed.

Lemma forecast_demand_empty_bad_horizon_witness :
  py_int JNull = Raise TypeError /\
  @forecast_demand np_sqrt_floor6 (Some (items_body [] JNull)) = Raise TypeError.
Proof. split; [reflexivity|]. apply forecast_demand_empty_bad_horizon. reflexivity. Defined.
