(* ===== verification/Errors.v ===== *)
(** * POST /forecast/errors

    [forecast_errors] (src/backend/app.py, lines 57-71) builds a sparse
    histogram of the residuals [actual[i] - predicted[i]] for [i] below
    [n = min(len(actual), len(predicted))].  It does this in four steps:
    - it rounds each residual to the nearest multiple of 5 with
      [int(round(r / 5.0) * 5)];
    - it counts the rounded values in a dict [bucket];
    - it sorts the dict's items;
    - it returns them as [{"error": k, "frequency": v}] rows.

    The dict is modelled as Python has it: an association list kept in
    insertion order.  [dict_get] is [bucket.get(b, 0)].  [dict_set] is
    [bucket[b] = ...]: it updates an existing key in place and appends a
    new key at the end.  [sorted] on the [(key, count)] tuples is stdpp's
    [merge_sort] on the lexicographic tuple order [item_le].  That order
    is total and antisymmetric, so there is exactly one sorted
    permutation, and Python's Timsort returns that same list.

    [errors_core] starts from the converted residuals; [forecast_errors]
    is the whole view on the request body.  [reads_as v a] says that the
    code's [len(v)] and [float(v[i])] read [v] as the values [a]: lists
    of numbers and also strings of digits are read that way. *)

From S2P Require Import Prelude Json PyConv.
From Stdlib Require Import QArith ZArith Lqa Lia List String.
From stdpp Require Import base list sorting.
Import ListNotations.
Open Scope Q_scope.

(** ** Buckets *)

(** [int(round(r / 5.0) * 5)]. *)
Definition bucket_of (r : Q) : Z := (round_half_even (r / 5) * 5)%Z.

(** ** The dict [bucket] *)

(** [d.get(k, dflt)]. *)
Fixpoint dict_get (d : list (Z * nat)) (k : Z) (dflt : nat) : nat :=
  match d with
  | [] => dflt
  | (k', v) :: d' => if Z.eq_dec k k' then v else dict_get d' k dflt
  end.

(** [d[k] = v]: in place for an existing key, appended for a new one. *)
Fixpoint dict_set (d : list (Z * nat)) (k : Z) (v : nat) : list (Z * nat) :=
  match d with
  | [] => [(k, v)]
  | (k', v') :: d' => if Z.eq_dec k k' then (k', v) :: d' else (k', v') :: dict_set d' k v
  end.

(** One iteration of the loop: [b = ...; bucket[b] = bucket.get(b, 0) + 1]. *)
Definition bucket_step (d : list (Z * nat)) (r : Q) : list (Z * nat) :=
  let b := bucket_of r in
  dict_set d b (dict_get d b 0 + 1).

(** The loop [for r in resid], from the empty dict. *)
Definition bucket_counts (resid : list Q) : list (Z * nat) :=
  fold_left bucket_step resid [].

(** The order [sorted] uses on the items: tuples compared lexicographically. *)
Definition item_le (x y : Z * nat) : Prop :=
  (x.1 < y.1)%Z \/ (x.1 = y.1 /\ (x.2 <= y.2)%nat).

#[export] Instance item_le_dec : RelDecision item_le.
Proof. intros x y. unfold item_le. apply _. Defined.

(** [sorted(bucket.items())]. *)
Definition errors_hist (resid : list Q) : list (Z * nat) :=
  merge_sort item_le (bucket_counts resid).

(** Lines 62-71, given [actual] and [predicted] already converted with
    [float()] on the indices below [n].  The guard is
    [if not actual or not predicted]; [vsub] pairs the two lists up to the
    shorter length, which is [range(n)]. *)
Definition errors_core (actual predicted : list Q) : list (Z * nat) :=
  match actual, predicted with
  | [], _ | _, [] => []
  | _, _ => errors_hist (vsub actual predicted)
  end.

(** ** The handler on the request body *)

Section JsonHandler.
Local Open Scope py_scope.
Local Open Scope string_scope.

(** [jsonify({"hist": [{"error": k, "frequency": v} ...]})]. *)
Definition hist_body (h : list (Z * nat)) : json :=
  JObj [("hist", JArr (map (fun kv => JObj [("error", JInt kv.1); ("frequency", JInt (Z.of_nat kv.2))]) h))].

(** [float(actual[i]) - float(predicted[i])]. *)
Definition residual_at (actual predicted : json) (i : nat) : pyres Q :=
  let* a := py_index actual i in
  let* fa := py_float a in
  let* p := py_index predicted i in
  let* fp := py_float p in
  Ok (fa - fp).

(** [forecast_errors] (lines 58-71) on the parsed request body. *)
Definition forecast_errors (body : option json) : pyres json :=
  let* raw := get_json_force body in
  let data := or_empty raw in
  let* actual := py_get data "actual" (JArr []) in
  let* predicted := py_get data "predicted" (JArr []) in
  if negb (truthy actual) || negb (truthy predicted) then Ok (JObj [("hist", JArr [])])
  else
    let* la := py_len actual in
    let* lp := py_len predicted in
    let* resid := pmap (residual_at actual predicted) (seq 0 (Nat.min la lp)) in
    Ok (hist_body (errors_hist resid)).
End JsonHandler.

(** How many residuals fall in bucket [k]. *)
Definition bucket_count (k : Z) (resid : list Q) : nat :=
  length (List.filter (fun r => Z.eqb (bucket_of r) k) resid).

(** The total of the counts of a histogram. *)
Definition total_frequency (h : list (Z * nat)) : nat := sum_list_with snd h.

(** ** The dict operations *)

Section Dict.
Implicit Types (d : list (Z * nat)) (k : Z) (v : nat).

Lemma dict_get_set_eq d k v dflt : dict_get (dict_set d k v) k dflt = v.
  Proof.
    induction d as [|[k' v'] d IH]; simpl; [destruct (Z.eq_dec k k); congruence|].
    destruct (Z.eq_dec k k') as [->|Hne]; simpl.
    - destruct (Z.eq_dec k' k'); congruence.
    - destruct (Z.eq_dec k k'); [congruence|exact IH].
  Qed.

Lemma dict_get_set_ne d k k' v dflt :
    k <> k' -> dict_get (dict_set d k v) k' dflt = dict_get d k' dflt.
  Proof.
    intros Hkk. induction d as [|[k'' v'] d IH]; simpl.
    - destruct (Z.eq_dec k' k); congruence.
    - destruct (Z.eq_dec k k'') as [->|Hne]; simpl;
        destruct (Z.eq_dec k' k''); congruence.
  Qed.

Lemma dict_get_absent d k dflt : k ∉ map fst d -> dict_get d k dflt = dflt.
  Proof.
    induction d as [|[k' v'] d IH]; simpl; intros Hk; [reflexivity|].
    rewrite elem_of_cons in Hk.
    destruct (Z.eq_dec k k'); [subst; exfalso; tauto|]. apply IH. tauto.
  Qed.

Lemma dict_set_keys d k v k' : k' ∈ map fst (dict_set d k v) <-> k' = k \/ k' ∈ map fst d.
  Proof.
    induction d as [|[k'' v'] d IH]; simpl.
    - rewrite list_elem_of_singleton, elem_of_nil. tauto.
    - destruct (Z.eq_dec k k'') as [->|Hne]; simpl; rewrite !elem_of_cons; [tauto|].
      rewrite IH. tauto.
  Qed.

Lemma dict_set_nodup d k v : NoDup (map fst d) -> NoDup (map fst (dict_set d k v)).
  Proof.
    induction d as [|[k' v'] d IH]; simpl; intros Hnd.
    - apply NoDup_singleton.
    - rewrite NoDup_cons in Hnd. destruct Hnd as [Hk Hnd].
      destruct (Z.eq_dec k k') as [->|Hne]; simpl; rewrite NoDup_cons; [tauto|].
      split; [|auto]. rewrite dict_set_keys. intros [->|]; tauto.
  Qed.

(** Setting [k] replaces the value that [get] returns by the new one. *)
Lemma dict_set_total d k v :
    (sum_list_with snd (dict_set d k v) + dict_get d k 0 = sum_list_with snd d + v)%nat.
  Proof.
    induction d as [|[k' v'] d IH]; simpl; [lia|].
    destruct (Z.eq_dec k k'); simpl; lia.
  Qed.

(** In a dict without duplicate keys, an item is a key with its value. *)
Lemma dict_items d k v :
    NoDup (map fst d) -> (k, v) ∈ d <-> k ∈ map fst d /\ dict_get d k 0 = v.
  Proof.
    induction d as [|[k' v'] d IH]; simpl; intros Hnd.
    - rewrite !elem_of_nil. tauto.
    - rewrite NoDup_cons in Hnd. destruct Hnd as [Hk Hnd].
      rewrite !elem_of_cons, IH by exact Hnd.
      destruct (Z.eq_dec k k') as [->|Hne]; split.
      + intros [E|[H1 _]]; [injection E; auto|contradiction].
      + intros [_ <-]; left; reflexivity.
      + intros [E|[H1 H2]]; [injection E; congruence|auto].
      + intros [[E|H1] H2]; [congruence|auto].
  Qed.
End Dict.

(** ** The counting loop *)

Section Loop.
Implicit Types (d : list (Z * nat)) (rs : list Q).

(** After the loop, [bucket.get(k, 0)] is the old count plus the number
    of new residuals in bucket [k]. *)
Lemma fold_bucket_get rs d k :
    dict_get (fold_left bucket_step rs d) k 0 = (dict_get d k 0 + bucket_count k rs)%nat.
  Proof.
    revert d; induction rs as [|r rs IH]; intros d; simpl; [unfold bucket_count; simpl; lia|].
    rewrite IH. unfold bucket_step, bucket_count. simpl.
    destruct (Z.eqb_spec (bucket_of r) k) as [<-|Hne]; simpl.
    - rewrite dict_get_set_eq. unfold bucket_count. lia.
    - rewrite dict_get_set_ne by exact Hne. reflexivity.
  Qed.

Lemma fold_bucket_nodup rs d :
    NoDup (map fst d) -> NoDup (map fst (fold_left bucket_step rs d)).
  Proof.
    revert d; induction rs as [|r rs IH]; intros d Hd; simpl; [exact Hd|].
    apply IH. unfold bucket_step. now apply dict_set_nodup.
  Qed.

Lemma fold_bucket_keys rs d k :
    k ∈ map fst (fold_left bucket_step rs d) <->
    k ∈ map fst d \/ exists r, r ∈ rs /\ bucket_of r = k.
  Proof.
    revert d; induction rs as [|r rs IH]; intros d; simpl.
    - split; [tauto|]. intros [H|[r [Hr _]]]; [exact H|]. now apply elem_of_nil in Hr.
    - rewrite IH. unfold bucket_step. rewrite dict_set_keys.
      split.
      + intros [[->|H]|[r' [Hr' <-]]]; [right; exists r; split; [left|]; reflexivity|auto|].
        right. exists r'. split; [right|]; auto.
      + intros [H|[r' [Hr' <-]]]; [auto|]. rewrite elem_of_cons in Hr'.
        destruct Hr' as [->|Hr']; [left; left; reflexivity|right; eauto].
  Qed.

Lemma fold_bucket_total rs d :
    sum_list_with snd (fold_left bucket_step rs d) = (sum_list_with snd d + length rs)%nat.
  Proof.
    revert d; induction rs as [|r rs IH]; intros d; simpl; [lia|].
    rewrite IH. unfold bucket_step.
    pose proof (dict_set_total d (bucket_of r) (dict_get d (bucket_of r) 0 + 1)). lia.
  Qed.
End Loop.

Lemma bucket_counts_nodup rs : NoDup (map fst (bucket_counts rs)).
Proof. apply fold_bucket_nodup. constructor. Qed.

Lemma bucket_counts_items rs k v :
  (k, v) ∈ bucket_counts rs <-> (0 < v)%nat /\ v = bucket_count k rs.
Proof.
  unfold bucket_counts. rewrite dict_items by (apply fold_bucket_nodup; constructor).
  rewrite fold_bucket_keys, fold_bucket_get. simpl.
  unfold bucket_count. rewrite elem_of_nil.
  split.
  - intros [[[]|[r [Hr Hb]]] <-]. split; [|reflexivity].
    destruct (List.filter _ rs) eqn:E; [|simpl; lia].
    exfalso. assert (Hin : In r (List.filter (fun r0 => Z.eqb (bucket_of r0) k) rs)).
    { apply filter_In. split; [now apply list_elem_of_In|now apply Z.eqb_eq]. }
    rewrite E in Hin. destruct Hin.
  - intros [Hpos ->]. split; [|reflexivity]. right.
    destruct (List.filter _ rs) as [|r l] eqn:E; [simpl in Hpos; lia|].
    assert (Hin : In r (List.filter (fun r0 => Z.eqb (bucket_of r0) k) rs)) by (rewrite E; left; auto).
    apply filter_In in Hin as [Hr Hb]. exists r.
    split; [now apply list_elem_of_In|now apply Z.eqb_eq].
Qed.

(** ** The sorted items *)

#[export] Instance item_le_trans : Transitive item_le.
Proof. intros [a1 b1] [a2 b2] [a3 b3]; unfold item_le; simpl; lia. Qed.

#[export] Instance item_le_total : Total item_le.
Proof. intros [a1 b1] [a2 b2]; unfold item_le; simpl; lia. Qed.

Lemma sum_list_with_perm {A} (f : A -> nat) (l1 l2 : list A) :
  l1 ≡ₚ l2 -> sum_list_with f l1 = sum_list_with f l2.
Proof. induction 1; simpl; lia. Qed.

(** Sorted items with distinct keys have strictly increasing keys. *)
Lemma sorted_items_strict (l : list (Z * nat)) :
  StronglySorted item_le l -> NoDup (map fst l) -> StronglySorted (fun x y => (x.1 < y.1)%Z) l.
Proof.
  induction 1 as [|x l Hs IH Hx]; simpl; intros Hnd; constructor.
  - apply IH. now apply NoDup_cons in Hnd as [_ ?].
  - apply NoDup_cons in Hnd as [Hk _].
    apply Forall_forall. intros y Hy. rewrite Forall_forall in Hx. specialize (Hx y Hy).
    destruct Hx as [Hlt|[Heq _]]; [exact Hlt|].
    exfalso. apply Hk. rewrite Heq. now apply list_elem_of_In, in_map, list_elem_of_In.
Qed.

#[export] Instance item_le_antisymm : AntiSymm (=) item_le.
Proof. intros [a1 b1] [a2 b2]; unfold item_le; simpl; intros H1 H2. f_equal; lia. Qed.

Lemma bucket_count_perm k rs1 rs2 : rs1 ≡ₚ rs2 -> bucket_count k rs1 = bucket_count k rs2.
Proof.
  unfold bucket_count. induction 1; simpl;
    repeat match goal with |- context [if ?b then _ else _] => destruct b end; simpl; lia.
Qed.

(** The dict holds the same items whatever the order of the residuals. *)
Lemma bucket_counts_perm rs1 rs2 : rs1 ≡ₚ rs2 -> bucket_counts rs1 ≡ₚ bucket_counts rs2.
Proof.
  intros Hp. apply NoDup_Permutation.
  - apply NoDup_ListNoDup, (NoDup_map_inv fst), NoDup_ListNoDup, bucket_counts_nodup.
  - apply NoDup_ListNoDup, (NoDup_map_inv fst), NoDup_ListNoDup, bucket_counts_nodup.
  - intros [k v]. rewrite !bucket_counts_items, (bucket_count_perm k rs1 rs2 Hp).
    reflexivity.
Qed.

Lemma errors_hist_perm rs : errors_hist rs ≡ₚ bucket_counts rs.
Proof. apply merge_sort_Permutation. Qed.

Lemma errors_core_hist a p : errors_core a p = errors_hist (vsub a p).
Proof. destruct a, p; reflexivity. Qed.

Lemma length_vsub a p : length (vsub a p) = Nat.min (length a) (length p).
Proof. unfold vsub. now rewrite length_map, length_combine. Qed.

(** ** Theorems *)

(** C4: the histogram's buckets are strictly ascending, so no bucket
    appears twice. *)
Theorem errors_sorted (actual predicted : list Q) :
  StronglySorted (fun x y => (x.1 < y.1)%Z) (errors_core actual predicted).
Proof.
  rewrite errors_core_hist. apply sorted_items_strict.
  - apply StronglySorted_merge_sort; apply _.
  - assert (Hp : map fst (errors_hist (vsub actual predicted)) ≡ₚ
                 map fst (bucket_counts (vsub actual predicted)))
      by (apply Permutation_map, errors_hist_perm).
    rewrite Hp. apply bucket_counts_nodup.
Qed.

(** C3: the frequencies add up to [n = min(len(actual), len(predicted))],
    including when one list is empty. *)
Theorem errors_total (actual predicted : list Q) :
  total_frequency (errors_core actual predicted) = Nat.min (length actual) (length predicted).
Proof.
  rewrite errors_core_hist. unfold total_frequency.
  rewrite (sum_list_with_perm snd _ _ (errors_hist_perm _)).
  unfold bucket_counts. rewrite fold_bucket_total, length_vsub. reflexivity.
Qed.

(** C6: a row [(k, v)] is in the histogram exactly when [v] is the number
    of residuals that round to bucket [k] and is positive: no bucket is
    missing and no empty bucket is listed. *)
Theorem errors_items (actual predicted : list Q) k v :
  (k, v) ∈ errors_core actual predicted <->
  (0 < v)%nat /\ v = bucket_count k (vsub actual predicted).
Proof.
  rewrite errors_core_hist, (errors_hist_perm (vsub actual predicted)).
  apply bucket_counts_items.
Qed.

(** C23: the histogram does not depend on the order of the pairs: two
    bodies whose [(actual[i], predicted[i])] pairs are the same up to
    reordering get the same histogram, since the dict is sorted. *)
Theorem errors_reorder (a1 p1 a2 p2 : list Q) :
  combine a1 p1 ≡ₚ combine a2 p2 -> errors_core a1 p1 = errors_core a2 p2.
Proof.
  intros Hp. rewrite !errors_core_hist. unfold errors_hist.
  assert (Hv : vsub a1 p1 ≡ₚ vsub a2 p2) by (unfold vsub; now apply Permutation_map).
  apply (@StronglySorted_unique _ item_le _); [apply StronglySorted_merge_sort; apply _..|].
  rewrite !merge_sort_Permutation. now apply bucket_counts_perm.
Qed.

Lemma errors_reorder_witness :
  combine [10; 20] [12; 18] ≡ₚ combine [20; 10] [18; 12] /\
  errors_core [10; 20] [12; 18] = errors_core [20; 10] [18; 12].
Proof.
  assert (Hp : combine [10; 20] [12; 18] ≡ₚ combine [20; 10] [18; 12]) by (simpl; apply perm_swap).
  split; [exact Hp|]. exact (errors_reorder _ _ _ _ Hp).
Defined.

(** C22: each residual goes to a multiple of 5 at most 2.5 away from it. *)
Theorem bucket_of_near (r : Q) :
  (5 | bucket_of r)%Z /\ r - (5 # 2) <= inject_Z (bucket_of r) <= r + (5 # 2).
Proof.
  unfold bucket_of. split; [exists (round_half_even (r / 5)); reflexivity|].
  pose proof (round_half_even_near (r / 5)) as [H1 H2].
  rewrite inject_Z_mult. change (inject_Z 5) with 5.
  set (z := inject_Z _) in *.
  assert (E : r == r / 5 * 5) by (field; discriminate).
  split; nra.
Qed.

(** C29: a residual exactly halfway between two multiples of 5,
    [5 * (m + 1/2)], goes to the bucket whose quotient by 5 is even, as
    Python's [round] rounds half to even: 2.5 and -2.5 go to 0, 7.5 to 10,
    12.5 to 10.  Rounding half away from zero would put 2.5 in bucket 5. *)
Theorem bucket_of_ties (m : Z) :
  bucket_of (5 * (inject_Z m + (1 # 2))) = (5 * (if Z.even m then m else m + 1))%Z.
Proof.
  unfold bucket_of.
  rewrite (round_half_even_proper (5 * (inject_Z m + (1 # 2)) / 5) (inject_Z m + (1 # 2)))
    by field.
  rewrite round_half_even_tie. lia.
Qed.

(** ** The handler on well-formed and malformed bodies *)

(** The body [{"actual": [...], "predicted": [...]}]. *)
Definition errors_body (a p : list Q) : json :=
  JObj [("actual"%string, json_floats a); ("predicted"%string, json_floats p)].

(** [v] is read as the values [a]: [len(v)] is their number and
    [float(v[i])] is the [i]-th of them. *)
Definition reads_as (v : json) (a : list Q) : Prop :=
  py_len v = Ok (List.length a) /\
  forall i, (i < List.length a)%nat -> exists x, py_index v i = Ok x /\ py_float x = Ok (nth i a 0).

Lemma reads_as_floats (a : list Q) : reads_as (json_floats a) a.
Proof.
  split; [unfold json_floats; simpl; now rewrite length_map|].
  intros i Hi. exists (JFloat (nth i a 0)). split; [|reflexivity].
  unfold json_floats. simpl. rewrite nth_error_map, (nth_error_nth' a 0 Hi). reflexivity.
Qed.

(** A string of digits is read one character at a time. *)
Lemma reads_as_digits (s : string) :
  forallb is_digit (list_ascii_of_string s) = true ->
  reads_as (JStr s) (map (fun c => inject_Z (digit_value c)) (list_ascii_of_string s)).
Proof.
  intros Hd. unfold reads_as. rewrite length_map. split; [simpl; now rewrite string_length_list|].
  intros i Hi. exists (char_str (nth i (list_ascii_of_string s) Ascii.zero)).
  split.
  - simpl. now rewrite string_get_nth, (nth_error_nth' _ Ascii.zero Hi).
  - rewrite forallb_forall in Hd. simpl. rewrite float_of_digit by (apply Hd, nth_In, Hi).
    f_equal. rewrite <- (map_nth (fun c => inject_Z (digit_value c))). reflexivity.
Qed.

(** [range(min(len(a), len(p)))] indexes the pairs [vsub] forms. *)
Lemma vsub_nth (a p : list Q) :
  vsub a p = map (fun i => nth i a 0 - nth i p 0) (seq 0 (Nat.min (List.length a) (List.length p))).
Proof.
  revert p; induction a as [|x a IH]; intros [|y p]; [reflexivity..|].
  cbn [List.length]. rewrite Nat.min_comm at 1. cbn [Nat.min seq map]. rewrite Nat.min_comm.
  unfold vsub in *. cbn [combine map]. rewrite <- seq_shift, map_map, IH. reflexivity.
Qed.

(** The comprehension of line 65 on lists read as [a] and [p]. *)
Lemma pmap_residual_at (A P : json) (a p : list Q) :
  reads_as A a -> reads_as P p ->
  pmap (residual_at A P) (seq 0 (Nat.min (List.length a) (List.length p))) = Ok (vsub a p).
Proof.
  intros [_ HA] [_ HP]. rewrite vsub_nth. apply pmap_map_ok.
  intros i Hi. apply in_seq in Hi.
  destruct (HA i ltac:(lia)) as (x & Hx & Hfx). destruct (HP i ltac:(lia)) as (y & Hy & Hfy).
  unfold residual_at. now rewrite Hx; cbn [pbind]; rewrite Hfx; cbn [pbind]; rewrite Hy;
    cbn [pbind]; rewrite Hfy.
Qed.

(** The handler on a body whose two fields are read as [a] and [p]. *)
Lemma forecast_errors_reads (A P : json) (a p : list Q) :
  reads_as A a -> reads_as P p -> truthy A = true -> truthy P = true ->
  forecast_errors (Some (JObj [("actual"%string, A); ("predicted"%string, P)]))
  = Ok (hist_body (errors_core a p)).
Proof.
  intros HA HP TA TP.
  assert (Ha : py_get (JObj [("actual"%string, A); ("predicted"%string, P)]) "actual" (JArr [])
               = Ok A) by reflexivity.
  assert (Hp : py_get (JObj [("actual"%string, A); ("predicted"%string, P)]) "predicted" (JArr [])
               = Ok P) by reflexivity.
  unfold forecast_errors. cbn [get_json_force pbind]. rewrite or_empty_obj, Ha. cbn [pbind].
  rewrite Hp. cbn [pbind]. rewrite TA, TP. cbn [negb orb].
  rewrite (proj1 HA), (proj1 HP). cbn [pbind].
  now rewrite (pmap_residual_at A P a p HA HP), errors_core_hist.
Qed.

(** C10: on a well-formed body the handler succeeds and returns the JSON
    encoding of [errors_core], including when a list is empty. *)
Theorem forecast_errors_values (a p : list Q) :
  forecast_errors (Some (errors_body a p)) = Ok (hist_body (errors_core a p)).
Proof.
  destruct a as [|x a]; [reflexivity|]. destruct p as [|y p]; [reflexivity|].
  apply forecast_errors_reads; [apply reads_as_floats..|reflexivity|reflexivity].
Qed.

(** C33: a string of digits is accepted where the list [actual] is expected:
    [actual[i]] is its [i]-th character and [float()] reads it as a
    digit, so the histogram is that of the digits against [predicted].
    The spec only describes lists of numbers. *)
Theorem forecast_errors_digit_string (s : string) (p : list Q) :
  s <> EmptyString -> p <> [] -> forallb is_digit (list_ascii_of_string s) = true ->
  forecast_errors (Some (JObj [("actual"%string, JStr s); ("predicted"%string, json_floats p)]))
  = Ok (hist_body (errors_core (map (fun c => inject_Z (digit_value c)) (list_ascii_of_string s)) p)).
Proof.
  intros Hs Hp Hd. apply forecast_errors_reads; [now apply reads_as_digits|apply reads_as_floats| |].
  - destruct s; [congruence|reflexivity].
  - destruct p; [congruence|reflexivity].
Qed.

Lemma forecast_errors_digit_string_witness :
  "12"%string <> EmptyString /\ [1; 3] <> [] /\ forallb is_digit (list_ascii_of_string "12") = true /\
  forecast_errors (Some (JObj [("actual"%string, JStr "12"); ("predicted"%string, json_floats [1; 3])]))
  = Ok (hist_body (errors_core (map (fun c => inject_Z (digit_value c)) (list_ascii_of_string "12")) [1; 3])).
Proof.
  assert (H1 : "12"%string <> EmptyString) by discriminate.
  assert (H2 : [1; 3] <> []) by discriminate.
  assert (H3 : forallb is_digit (list_ascii_of_string "12") = true) by reflexivity.
  split; [exact H1|]. split; [exact H2|]. split; [exact H3|].
  exact (forecast_errors_digit_string _ _ H1 H2 H3).
Defined.
