(* ===== verification/Compare.v ===== *)
(** * POST /forecast/compare

    [forecast_compare] (src/backend/app.py, lines 73-89) loops over rows
    [{event, actual, predicted}].  For each row it computes the accuracy
    [min(actual, predicted) / max(actual, predicted)] when both values
    are positive, and 0.0 otherwise.  It appends the accuracy to [accs]
    and appends an output row to [out].  At the end it formats the mean
    accuracy (0.0 for no rows) as a percentage with one decimal.

    The loop is modelled as the code writes it: [compare_step] is one
    iteration and takes the pair of lists [(out, accs)] to the next pair.
    [compare_loop] folds it over the rows from [([], [])].  The theorems
    show three things:
    - the loop is the map of a per-row function (a refinement: the
      imperative loop computes the functional specification);
    - accuracies lie in [0, 1];
    - the formatted percentages are those of the spec.

    The row's event is passed through unchanged, whatever JSON value it
    is, so [compare_core] is generic in its type [E].  [forecast_compare]
    is the whole view on the request body: its loop reads and computes one
    row at a time, and the first exception ends the request. *)

From S2P Require Import Prelude Format Json PyConv.
From Stdlib Require Import QArith Qabs ZArith NArith Lqa Lia List String.
Import ListNotations.
Open Scope Q_scope.
Open Scope forecast_scope.

(** [acc] for one row. *)
Definition accuracy (actual predicted : Q) : Q :=
  if Qlt_le_dec 0 actual then
    if Qlt_le_dec 0 predicted then py_min actual predicted / py_max actual predicted
    else 0
  else 0.

(** [f"{x*100:.1f}%"]. *)
Definition percent (x : Q) : string := (format_fixed 1 (x * 100) ++ "%")%string.

Section Rows.
Variable E : Type.

(** A decoded input row: [row.get("event", "")] and the two floats. *)
Record in_row : Type := { ir_event : E; ir_actual : Q; ir_predicted : Q }.

(** An output row [{"event", "actual", "predicted", "accuracy"}]. *)
Record out_row : Type := {
    or_event : E;
    or_actual : Z;
    or_predicted : Z;
    or_accuracy : string
  }.

(** The response [{"rows": out, "average": ...}]. *)
Record compare_response : Type := { cr_rows : list out_row; cr_average : string }.

(** The output row the loop body builds. *)
Definition out_row_of (r : in_row) : out_row :=
    {| or_event := ir_event r;
       or_actual := round_half_even (ir_actual r);
       or_predicted := round_half_even (ir_predicted r);
       or_accuracy := percent (accuracy (ir_actual r) (ir_predicted r)) |}.

(** One iteration: [accs.append(acc); out.append({...})]. *)
Definition compare_step (st : list out_row * list Q) (r : in_row) : list out_row * list Q :=
    let '(out, accs) := st in
    let acc := accuracy (ir_actual r) (ir_predicted r) in
    (out ++ [out_row_of r], accs ++ [acc]).

(** The [for row in rows] loop from [out = []], [accs = []]. *)
Definition compare_loop (rows : list in_row) : list out_row * list Q :=
    fold_left compare_step rows ([], []).

(** [sum(accs) / len(accs) if accs else 0.0]. *)
Definition average (accs : list Q) : Q :=
    match accs with
    | [] => 0
    | _ :: _ => qsum accs / qlen accs
    end.

(** Lines 77-89, given the decoded rows. *)
Definition compare_core (rows : list in_row) : compare_response :=
    let '(out, accs) := compare_loop rows in
    {| cr_rows := out; cr_average := percent (average accs) |}.
End Rows.

Arguments ir_event {E}. Arguments ir_actual {E}. Arguments ir_predicted {E}.
Arguments or_event {E}. Arguments or_actual {E}. Arguments or_predicted {E}.
Arguments or_accuracy {E}. Arguments cr_rows {E}. Arguments cr_average {E}.
Arguments out_row_of {E}. Arguments compare_step {E}. Arguments compare_loop {E}.
Arguments compare_core {E}. Arguments Build_in_row {E}.

(** ** The handler on the request body *)

Section JsonHandler.
Local Open Scope py_scope.
Local Open Scope string_scope.

(** The fields one iteration reads: [float(row.get("actual", 0))],
    [float(row.get("predicted", 0))] and [row.get("event", "")]. *)
Definition decode_row (row : json) : pyres (in_row json) :=
  let* a := py_get row "actual" (JInt 0) in
  let* fa := py_float a in
  let* p := py_get row "predicted" (JInt 0) in
  let* fp := py_float p in
  let* ev := py_get row "event" (JStr "") in
  Ok (Build_in_row ev fa fp).

(** One iteration on a JSON row, reading and computing as the code
    interleaves them; an exception ends the loop. *)
Definition compare_step_json (st : pyres (list (out_row json) * list Q)) (row : json)
  : pyres (list (out_row json) * list Q) :=
  let* s := st in
  let* r := decode_row row in
  Ok (compare_step s r).

(** The [for row in rows] loop on JSON rows. *)
Definition compare_loop_json (rows : list json) : pyres (list (out_row json) * list Q) :=
  fold_left compare_step_json rows (Ok ([], [])).

(** [{"event", "actual", "predicted", "accuracy"}] of one output row. *)
Definition out_row_json (o : out_row json) : json :=
  JObj [("event", or_event o); ("actual", JInt (or_actual o));
        ("predicted", JInt (or_predicted o)); ("accuracy", JStr (or_accuracy o))].

(** [jsonify({"rows": out, "average": ...})]. *)
Definition compare_body (r : compare_response json) : json :=
  JObj [("rows", JArr (map out_row_json (cr_rows r))); ("average", JStr (cr_average r))].

(** [forecast_compare] (lines 74-89) on the parsed request body. *)
Definition forecast_compare (body : option json) : pyres json :=
  let* raw := get_json_force body in
  let data := or_empty raw in
  let* rows := py_get data "rows" (JArr []) in
  let* items := py_iter rows in
  let* st := compare_loop_json items in
  Ok (compare_body {| cr_rows := fst st; cr_average := percent (average (snd st)) |}).
End JsonHandler.

(** ** The loop computes a map *)

Section Loop.
Context {E : Type}.

Definition row_accuracy (r : in_row E) : Q := accuracy (ir_actual r) (ir_predicted r).

Lemma fold_compare_step (rows : list (in_row E)) out accs :
    fold_left compare_step rows (out, accs) =
    (out ++ map out_row_of rows, accs ++ map row_accuracy rows).
  Proof.
    revert out accs; induction rows as [|r rows IH]; intros out accs; simpl.
    - now rewrite !app_nil_r.
    - rewrite IH, <- !app_assoc. reflexivity.
  Qed.

(** C16: the loop with its two accumulators is the map of the per-row
    function: [out] lists one output row per input row, in input order,
    and [average] is the mean of the per-row accuracies. *)
Theorem compare_core_map (rows : list (in_row E)) :
    cr_rows (compare_core rows) = map out_row_of rows /\
    cr_average (compare_core rows) = percent (average (map row_accuracy rows)).
  Proof. unfold compare_core, compare_loop. now rewrite fold_compare_step. Qed.
End Loop.

(** ** Accuracy *)

Lemma accuracy_bounds a p : 0 <= accuracy a p <= 1.
Proof.
  unfold accuracy. destruct (Qlt_le_dec 0 a), (Qlt_le_dec 0 p); try lra.
  py_cases; split; try (apply Qdiv_nonneg; lra);
    apply Qle_shift_div_r; lra.
Qed.

(** C7: the accuracy of a row is in [0, 1]. *)
Theorem accuracy_range a p : 0 <= accuracy a p <= 1.
Proof. exact (accuracy_bounds a p). Qed.

(** C17: a row whose actual or predicted value is not positive has accuracy
    exactly 0. *)
Theorem accuracy_nonpos a p : a <= 0 \/ p <= 0 -> accuracy a p = 0.
Proof.
  intros H. unfold accuracy.
  destruct (Qlt_le_dec 0 a), (Qlt_le_dec 0 p); try reflexivity; exfalso; lra.
Qed.

(** C26: the accuracy does not depend on which value is the actual one. *)
Theorem accuracy_symmetric a p : accuracy a p == accuracy p a.
Proof.
  unfold accuracy. destruct (Qlt_le_dec 0 a), (Qlt_le_dec 0 p); try reflexivity.
  py_cases; try reflexivity; try (exfalso; lra).
  all: assert (Hap : a == p) by lra; rewrite Hap; reflexivity.
Qed.

(** C27: the accuracy is 1 exactly when both values are positive and equal. *)
Theorem accuracy_one a p : accuracy a p == 1 <-> 0 < a /\ a == p.
Proof.
  unfold accuracy.
  destruct (Qlt_le_dec 0 a) as [Ha|Ha], (Qlt_le_dec 0 p) as [Hp|Hp];
    try (split; [intros H; discriminate H|lra]).
  assert (HM : 0 < py_max a p) by (pose proof (py_max_ge_l a p); lra).
  assert (Hm : py_min a p == py_max a p <-> a == p) by (py_cases; split; intros; lra).
  split.
  - intros H. split; [exact Ha|]. apply Hm.
    assert (E1 : py_min a p == py_min a p / py_max a p * py_max a p) by (field; lra).
    rewrite H in E1. lra.
  - intros [_ Hap]. apply Hm in Hap. rewrite Hap. field. lra.
Qed.

(** ** Percentages *)

(** A percentage string with one decimal between ["0.0%"] and
    ["100.0%"]. *)
Definition percent_form (s : string) : Prop :=
  exists m : N, (m <= 1000)%N /\
    s = (dec_string (m / 10) ++ "." ++ dec_string (m mod 10) ++ "%")%string.

Lemma percent_unit_interval x : 0 <= x <= 1 -> percent_form (percent x).
Proof.
  intros Hx. unfold percent. rewrite format_fixed_1 by lra.
  exists (Z.to_N (scaled_round 1 (x * 100))). split.
  - unfold scaled_round.
    pose proof (round_half_even_le (x * 100 * inject_Z (10 ^ Z.of_nat 1)) 1000) as Hr.
    change (round_half_even 1000) with 1000%Z in Hr.
    assert (x * 100 * inject_Z (10 ^ Z.of_nat 1) <= 1000)
      by (change (inject_Z (10 ^ Z.of_nat 1)) with 10; lra).
    specialize (Hr H). lia.
  - now rewrite !string_append_assoc.
Qed.

Lemma average_range (accs : list Q) :
  (forall x, In x accs -> 0 <= x <= 1) -> 0 <= average accs <= 1.
Proof.
  intros H. destruct accs as [|a accs]; [simpl; lra|].
  unfold average. set (l := a :: accs).
  assert (Hs0 : 0 <= qsum l) by (apply qsum_map_nonneg; intros; apply H; auto).
  assert (Hs1 : qsum l <= qlen l * 1).
  { rewrite <- qsum_map_const. apply qsum_map_le. intros; apply H; auto. }
  pose proof (qlen_pos l ltac:(discriminate)).
  split; [apply Qdiv_nonneg; lra|]. apply Qle_shift_div_r; lra.
Qed.

(** C24: every accuracy string and the average string of the response are
    percentages with one decimal between ["0.0%"] and ["100.0%"]. *)
Theorem compare_percent_forms {E} (rows : list (in_row E)) :
  Forall (fun o => percent_form (or_accuracy o)) (cr_rows (compare_core rows)) /\
  percent_form (cr_average (compare_core rows)).
Proof.
  unfold compare_core, compare_loop. rewrite fold_compare_step. cbn [cr_rows cr_average app]. split.
  - apply Forall_forall. intros o Ho. apply in_map_iff in Ho as [r [<- _]].
    apply percent_unit_interval, accuracy_bounds.
  - apply percent_unit_interval, average_range. intros x Hx.
    apply in_map_iff in Hx as [r [<- _]]. apply accuracy_bounds.
Qed.

(** C25: the accuracy string [f"{acc*100:.1f}%"] of a row, without its
    percent sign, reads back through [float()] as [acc * 100] rounded half
    to even at one decimal: the printed percentage loses nothing but that
    rounding. *)
Theorem accuracy_string_roundtrip a p :
  exists s q, percent (accuracy a p) = (s ++ "%")%string /\ float_of_string s = Ok q /\
              q == inject_Z (round_half_even (accuracy a p * 1000)) / 10.
Proof.
  assert (Hb : Qabs (accuracy a p * 100) + 1 <= float_overflow_bound).
  { pose proof (accuracy_bounds a p). rewrite Qabs_pos by lra.
    assert (101 <= float_overflow_bound) by (apply Qle_bool_imp_le; vm_compute; reflexivity). lra. }
  destruct (float_of_format_fixed 1 _ Hb) as (q & Hq & Eq).
  exists (format_fixed 1 (accuracy a p * 100)), q. split; [reflexivity|]. split; [exact Hq|].
  rewrite Eq. unfold scaled_round.
  rewrite (round_half_even_proper (accuracy a p * 100 * inject_Z (10 ^ Z.of_nat 1)) (accuracy a p * 1000))
    by (change (inject_Z (10 ^ Z.of_nat 1)) with 10; ring).
  reflexivity.
Qed.

(** ** Witnesses *)

Lemma accuracy_nonpos_witness : (0 <= 0 \/ 5 <= 0) /\ accuracy 0 5 = 0.
Proof. split; [left; lra|]. apply accuracy_nonpos. left; lra. Defined.

(** ** The handler on well-formed and malformed bodies *)

Lemma fold_compare_step_json_raise (rows : list json) e :
  fold_left compare_step_json rows (Raise e) = Raise e.
Proof. induction rows; simpl; auto. Qed.

Lemma fold_compare_step_json_nonfinite (rows : list json) :
  fold_left compare_step_json rows NonFinite = NonFinite.
Proof. induction rows; simpl; auto. Qed.

Lemma fold_compare_step_json (rows : list json) st :
  fold_left compare_step_json rows (Ok st) =
  pbind (pmap decode_row rows) (fun d => Ok (fold_left compare_step d st)).
Proof.
  revert st; induction rows as [|row rows IH]; intros st; [reflexivity|].
  cbn [fold_left pmap]. unfold compare_step_json at 2. cbn [pbind].
  destruct (decode_row row) as [r|e|]; cbn [pbind].
  - rewrite IH. destruct (pmap decode_row rows); reflexivity.
  - apply fold_compare_step_json_raise.
  - apply fold_compare_step_json_nonfinite.
Qed.

(** The body [{"rows": [{"event": e, "actual": a, "predicted": p}, ...]}]. *)
Definition row_json (r : in_row json) : json :=
  JObj [("event"%string, ir_event r); ("actual"%string, JFloat (ir_actual r));
        ("predicted"%string, JFloat (ir_predicted r))].

Definition rows_body (rs : list (in_row json)) : json :=
  JObj [("rows"%string, JArr (map row_json rs))].

(** C11: on a well-formed body the handler succeeds and returns the JSON
    encoding of [compare_core] on the rows. *)
Theorem forecast_compare_values (rs : list (in_row json)) :
  forecast_compare (Some (rows_body rs)) = Ok (compare_body (compare_core rs)).
Proof.
  unfold forecast_compare, rows_body. cbn [get_json_force pbind].
  rewrite or_empty_obj, py_get_head. cbn [pbind py_iter].
  unfold compare_loop_json. rewrite fold_compare_step_json, pmap_map, (pmap_map_ok _ (fun r => r))
    by (intros [ev a p] _; reflexivity).
  rewrite map_id. unfold compare_core. simpl.
  unfold compare_loop. destruct (fold_left _ _ _). reflexivity.
Qed.

(** C32: a body without a ["rows"] key gives the empty answer, but a
    ["rows"] value that [for] cannot iterate ([null], a number, a boolean)
    makes the request raise that [TypeError] (status 500).  The spec does
    not tell a [null] field from a missing one. *)
Theorem forecast_compare_rows_field (fs : list (string * json)) :
  (lookup_field "rows" fs = None ->
   forecast_compare (Some (JObj fs)) = Ok (compare_body (@compare_core json []))) /\
  (forall v e, lookup_field "rows" fs = Some v -> py_iter v = Raise e ->
   forecast_compare (Some (JObj fs)) = Raise e).
Proof.
  unfold forecast_compare. cbn [get_json_force pbind]. rewrite or_empty_obj. split.
  - intros Hn. unfold py_get. rewrite Hn. reflexivity.
  - intros v e Hv He. unfold py_get. rewrite Hv. cbn [pbind]. now rewrite He.
Qed.

Lemma forecast_compare_rows_field_witness :
  (lookup_field "rows" [("rows"%string, JNull)] = None ->
   forecast_compare (Some (JObj [("rows"%string, JNull)])) = Ok (compare_body (@compare_core json []))) /\
  (lookup_field "rows" [("rows"%string, JNull)] = Some JNull /\ py_iter JNull = Raise TypeError /\
   forecast_compare (Some (JObj [("rows"%string, JNull)])) = Raise TypeError).
Proof.
  destruct (forecast_compare_rows_field [("rows"%string, JNull)]) as [H1 H2].
  assert (Hv : lookup_field "rows" [("rows"%string, JNull)] = Some JNull) by reflexivity.
  assert (He : py_iter JNull = Raise TypeError) by reflexivity.
  split; [exact H1|]. split; [exact Hv|]. split; [exact He|]. exact (H2 _ _ Hv He).
Defined.
