(* ===== verification/Service.v ===== *)
(** * The Flask application: routes, status codes and the health check

    [src/backend/app.py] creates one Flask app (line 6), enables CORS for
    every origin (line 7) and registers five views with [@app.get] and
    [@app.post] (lines 9, 13, 29, 57, 73).  This file models what a
    request meets around the views of the other files:
    - the routing table: each path has one rule and one method.  Flask
      also answers [HEAD] for a [GET] rule, with the status of [GET] and
      no body, and [OPTIONS] for every rule.  An unknown path is 404; a
      known path with another method is 405.
    - the outcome of a view: its JSON with 200; the [BadRequest] that
      [request.get_json(force=True)] raises inside the view on a body
      that is not JSON, as 400; any other exception as 500;
    - the health check.

    The CORS headers and the HTTP server itself ([app.run]) are not
    modelled: they do not change status codes or bodies. *)

From S2P Require Import Prelude Json PyConv LinearFit Trend Demand Errors Compare.
From Stdlib Require Import QArith ZArith Lia List String.
Import ListNotations.
Open Scope string_scope.

Inductive http_method : Type := GET | HEAD | POST | PUT | DELETE | PATCH | OPTIONS.

Definition method_eqb (m1 m2 : http_method) : bool :=
  match m1, m2 with
  | GET, GET | HEAD, HEAD | POST, POST | PUT, PUT | DELETE, DELETE
  | PATCH, PATCH | OPTIONS, OPTIONS => true
  | _, _ => false
  end.

(** What the client receives: a JSON body with its status, an error page
    of Flask with its status, a status without body (the reply to
    [HEAD]), the automatic [OPTIONS] reply, or a body with a non-finite
    float, which the model does not represent. *)
Inductive http_response : Type :=
| HttpJson (status : Z) (body : json)
| HttpStatus (status : Z)
| HttpEmpty (status : Z)
| HttpAllow (methods : list http_method)
| HttpOutside.

Inductive endpoint : Type := Health | TrendEp | DemandEp | ErrorsEp | CompareEp.

(** The rules, one per decorator. *)
Definition route_health : string * http_method * endpoint := ("/health", GET, Health).
Definition route_trend : string * http_method * endpoint := ("/forecast/trend", POST, TrendEp).
Definition route_demand : string * http_method * endpoint := ("/forecast/demand", POST, DemandEp).
Definition route_errors : string * http_method * endpoint := ("/forecast/errors", POST, ErrorsEp).
Definition route_compare : string * http_method * endpoint := ("/forecast/compare", POST, CompareEp).

(** The url map the decorators build. *)
Definition routes : list (string * http_method * endpoint) :=
  [route_health; route_trend; route_demand; route_errors; route_compare].

(** The methods a rule answers: its own, [HEAD] with [GET], and [OPTIONS]. *)
Definition rule_methods (m : http_method) : list http_method :=
  match m with
  | GET => [GET; HEAD; OPTIONS]
  | _ => [m; OPTIONS]
  end.

(** [health()]. *)
Definition health : json := JObj [("status", JStr "ok")].

(** The view's outcome as Flask sends it: 200 with the JSON, 400 for the
    [BadRequest] of [get_json], 500 for any other exception. *)
Definition finish (r : pyres json) : http_response :=
  match r with
  | Ok b => HttpJson 200 b
  | Raise BadRequest => HttpStatus 400
  | Raise _ => HttpStatus 500
  | NonFinite => HttpOutside
  end.

(** Calling a view on the request body ([None] when it is not JSON). *)
Definition run_endpoint `{NpSqrt} (e : endpoint) (body : option json) : http_response :=
  match e with
  | Health => HttpJson 200 health
  | TrendEp => finish (forecast_trend body)
  | DemandEp => finish (forecast_demand body)
  | ErrorsEp => finish (forecast_errors body)
  | CompareEp => finish (forecast_compare body)
  end.

(** The reply to [HEAD]: the status of [GET], without the body. *)
Definition head_reply (r : http_response) : http_response :=
  match r with
  | HttpJson s _ => HttpEmpty s
  | r => r
  end.

(** Matching a request against the rules. *)
Definition dispatch `{NpSqrt} (meth : http_method) (path : string) (body : option json)
  : http_response :=
  match find (fun r => String.eqb (fst (fst r)) path) routes with
  | None => HttpStatus 404
  | Some (_, m, e) =>
      if method_eqb meth OPTIONS then HttpAllow (rule_methods m)
      else if existsb (method_eqb meth) (rule_methods m) then
        if method_eqb meth HEAD then head_reply (run_endpoint e body) else run_endpoint e body
      else HttpStatus 405
  end.

(** ** Lemmas on the routing table *)

(** Case analysis on a rule of the table. *)
Ltac route_cases H :=
  unfold routes, route_health, route_trend, route_demand, route_errors, route_compare in H;
  repeat (let Heq := fresh in destruct H as [Heq|H];
          [first [discriminate Heq | injection Heq; intros; subst]|]);
  [..|destruct H].

Lemma method_eqb_true m1 m2 : method_eqb m1 m2 = true <-> m1 = m2.
Proof. destruct m1, m2; simpl; split; congruence. Qed.

Lemma existsb_method meth ms : existsb (method_eqb meth) ms = true <-> In meth ms.
Proof.
  rewrite existsb_exists. split.
  - intros (m & Hin & Heq). apply method_eqb_true in Heq. now subst.
  - intros Hin. exists meth. split; [exact Hin|]. now apply method_eqb_true.
Qed.

(** The paths of the rules are distinct, so a path finds its own rule. *)
Lemma find_route p m e :
  In (p, m, e) routes -> find (fun r => String.eqb (fst (fst r)) p) routes = Some (p, m, e).
Proof. intros Hin. route_cases Hin; reflexivity. Qed.

(** Every rule is registered for [GET] or [POST]. *)
Lemma route_method p m e : In (p, m, e) routes -> m = GET \/ m = POST.
Proof. intros Hin. route_cases Hin; auto. Qed.

Lemma dispatch_known `{NpSqrt} p m e meth body :
  In (p, m, e) routes ->
  dispatch meth p body =
    if method_eqb meth OPTIONS then HttpAllow (rule_methods m)
    else if existsb (method_eqb meth) (rule_methods m) then
      if method_eqb meth HEAD then head_reply (run_endpoint e body) else run_endpoint e body
    else HttpStatus 405.
Proof. intros Hin. unfold dispatch. now rewrite (find_route p m e Hin). Qed.

(** ** Routing *)

(** C19: a request with the method of its rule reaches that rule's view,
    and an [OPTIONS] request to the same path lists the methods the rule
    answers. *)
Theorem dispatch_rule `{NpSqrt} p m e body :
  In (p, m, e) routes ->
  dispatch m p body = run_endpoint e body /\
  dispatch OPTIONS p body = HttpAllow (rule_methods m).
Proof.
  intros Hin. rewrite !(dispatch_known p m e _ body Hin). split; [|reflexivity].
  now destruct (route_method p m e Hin) as [->| ->].
Qed.

Lemma dispatch_rule_witness :
  In ("/forecast/trend", POST, TrendEp) routes /\
  @dispatch np_sqrt_floor6 POST "/forecast/trend" None = HttpStatus 400 /\
  @dispatch np_sqrt_floor6 OPTIONS "/forecast/trend" None = HttpAllow [POST; OPTIONS].
Proof.
  assert (Hin : In ("/forecast/trend", POST, TrendEp) routes) by (simpl; auto 10).
  split; [exact Hin|]. exact (dispatch_rule _ _ _ None Hin).
Defined.

(** C20: a method the rule does not answer is refused with 405. *)
Theorem dispatch_wrong_method `{NpSqrt} p m e meth body :
  In (p, m, e) routes -> ~ In meth (rule_methods m) ->
  dispatch meth p body = HttpStatus 405.
Proof.
  intros Hin Hm. rewrite (dispatch_known p m e meth body Hin).
  destruct (method_eqb meth OPTIONS) eqn:Ho.
  - apply method_eqb_true in Ho. subst. destruct Hm. destruct m; simpl; auto.
  - destruct (existsb (method_eqb meth) (rule_methods m)) eqn:Hx; [|reflexivity].
    apply existsb_method in Hx. contradiction.
Qed.

Lemma dispatch_wrong_method_witness :
  In ("/health", GET, Health) routes /\ ~ In POST (rule_methods GET) /\
  @dispatch np_sqrt_floor6 POST "/health" None = HttpStatus 405.
Proof.
  assert (Hin : In ("/health", GET, Health) routes) by (simpl; auto 10).
  assert (Hm : ~ In POST (rule_methods GET)) by (simpl; intuition discriminate).
  split; [exact Hin|]. split; [exact Hm|]. exact (dispatch_wrong_method _ _ _ _ None Hin Hm).
Defined.
